(** * OCRspellcheck: error rates of a book text under a spell checker

    A shallow embedding of [calculate_error_rates_using_spellcheck.py]:
    [calculate_error_rate] (the pass over the pages of one book),
    [collect_spellcheck_error_data_in_file] (the per-book cache and writer)
    and [collect_spellcheck_error_data_in_folder] (the run over a corpus),
    followed by the properties of the three functions.

    Conventions of the embedding.
    - A Python [str] is a sequence of Unicode code points: [str := list N].
      [text "..."] turns a Rocq string literal into such a sequence.
    - Python integers are [Z]; the two rates, which Python computes by true
      division of two integers, are the exact quotients in [Q] (the float
      Python stores is the double nearest to that quotient).
    - The regular-expression engine is embedded for the one pattern the
      program fixes, [(PageV\d+P\d+)]; its class [\d] (the decimal digits of
      Unicode) is a parameter [isdigit].  A token pattern is given by what
      [re.finditer] yields for it: the list of its matches in a string.
    - Exceptions are values of [exn]; a function that can raise returns a sum
      or, where it also mutates, the state it leaves behind together with the
      outcome.
    - [verbose] only prints and is left out. *)

From Stdlib Require Import ZArith QArith List String Ascii Lia Bool.
From stdpp Require Import base option list gmap.

Open Scope Z_scope.

(** ** Strings *)

Abbreviation str := (list N).

Definition text (s : string) : str :=
  List.map N_of_ascii (list_ascii_of_string s).

(** [len(s)] *)
Definition len (s : str) : Z := Z.of_nat (List.length s).

(** [s.startswith(prefix)] *)
Fixpoint startswith (s prefix : str) : bool :=
  match prefix, s with
  | [], _ => true
  | _ :: _, [] => false
  | c :: prefix', d :: s' => N.eqb c d && startswith s' prefix'
  end.

(** The rest of [s] behind [prefix], when [s] starts with it. *)
Fixpoint strip_prefix (prefix s : str) : option str :=
  match prefix, s with
  | [], _ => Some s
  | _ :: _, [] => None
  | c :: prefix', d :: s' => if N.eqb c d then strip_prefix prefix' s' else None
  end.

(** The longest prefix of [s] all of whose characters satisfy [f], and the
    rest. *)
Fixpoint span (f : N -> bool) (s : str) : str * str :=
  match s with
  | [] => ([], [])
  | c :: s' =>
      if f c then let (run, rest) := span f s' in (c :: run, rest)
      else ([], s)
  end.

(** ** Exceptions *)

Inductive exn : Type :=
| ZeroDivisionError
| FileNotFoundError
| OSError
| JSONDecodeError
| KeyError
| TypeError.

(** ** The page-marker pattern and [re.split] *)

Section Regex.

(** The class [\d]. *)
Variable isdigit : N -> bool.

Definition chr_P : N := 80.

(** A match of [\d+] at the start of [s]: the longest run of digits, which
    must not be empty, and the rest. *)
Definition match_digits (s : str) : option (str * str) :=
  match span isdigit s with
  | ([], _) => None
  | (run, rest) => Some (run, rest)
  end.

(** A match of [\d*P\d+] at the start of [s], as the backtracking engine
    finds it: the run of digits is extended as far as a match allows, and
    only then is the character taken for the [P] of the pattern. *)
Fixpoint match_digits_P_digits (s : str) : option (str * str) :=
  match s with
  | [] => None
  | c :: s' =>
      let at_P :=
        if N.eqb c chr_P then
          match match_digits s' with
          | Some (d2, rest) => Some (c :: d2, rest)
          | None => None
          end
        else None in
      if isdigit c then
        match match_digits_P_digits s' with
        | Some (m, rest) => Some (c :: m, rest)
        | None => at_P
        end
      else at_P
  end.

(** A match of [PageV\d+P\d+] at the start of [s]: the matched text and the
    rest of [s]. *)
Definition match_marker (s : str) : option (str * str) :=
  match strip_prefix (text "PageV") s with
  | Some (c :: s') =>
      if isdigit c then
        match match_digits_P_digits s' with
        | Some (m, rest) => Some (text "PageV" ++ c :: m, rest)
        | None => None
        end
      else None
  | _ => None
  end.

(** [re.split("(PageV\d+P\d+)", t)], scanning [t] from the left: [cur]
    holds, reversed, the characters read since the last match.  A match
    closes the current piece and is itself the next element of the result
    (the pattern is one capturing group).  Every match consumes at least
    one character, so [length t] steps are enough. *)
Fixpoint re_split_from (fuel : nat) (cur t : str) : list str :=
  match fuel with
  | O => [List.rev cur ++ t]
  | S fuel' =>
      match match_marker t with
      | Some (m, rest) => List.rev cur :: m :: re_split_from fuel' [] rest
      | None =>
          match t with
          | [] => [List.rev cur]
          | c :: t' => re_split_from fuel' (c :: cur) t'
          end
      end
  end.

Definition re_split (t : str) : list str :=
  re_split_from (List.length t) [] t.

(** [s] as a whole is a page marker. *)
Definition is_marker (s : str) : bool :=
  match match_marker s with
  | Some (_, []) => true
  | _ => false
  end.

End Regex.

(** ** The counters *)

(** The dictionary [page_errors] of the loop: the counts of the page being
    read. *)
Record page_record : Type := mk_page {
  pg_all : Z;
  pg_long : Z;
  pg_tok_count : Z;
  pg_page_no : str
}.

(** The dictionary [errors] of the loop: the counts of the book and the list
    of the pages closed so far. *)
Record book_counts : Type := mk_counts {
  bk_all : Z;
  bk_long : Z;
  bk_tok_count : Z;
  bk_page_errors : list page_record
}.

(** The dictionary [calculate_error_rate] returns: [errors] with its two
    rates. *)
Record book_record : Type := mk_book {
  all : Z;
  long : Z;
  tok_count : Z;
  page_errors : list page_record;
  error_rate : Q;
  long_tokens_error_rate : Q
}.

(** [{"all": 0, "long": 0, "tok_count": 0, "page_no": ""}] *)
Definition new_page : page_record := mk_page 0 0 0 [].

(** [{"all": 0, "long": 0, "tok_count": 0, "page_errors": []}] *)
Definition new_counts : book_counts := mk_counts 0 0 0 [].

(** [a / b] on two integers. *)
Definition truediv (a b : Z) : exn + Q :=
  if b =? 0 then inl ZeroDivisionError
  else inr (Qdiv (inject_Z a) (inject_Z b)).

(** ** [calculate_error_rate] *)

Section CalculateErrorRate.

Variable isdigit : N -> bool.
Variable spellcheck_func : str -> bool.
(** [re.finditer(token_regex, p)], as the list of [m.group()]. *)
Variable token_regex : str -> list str.
Variable long_min : Z.

(** The body of the loop over the matches, for the match [tok]. *)
Definition count_token (st : book_counts * page_record) (tok : str)
  : book_counts * page_record :=
  let (errors, page) := st in
  let errors := mk_counts (bk_all errors) (bk_long errors)
                  (bk_tok_count errors + 1) (bk_page_errors errors) in
  let page := mk_page (pg_all page) (pg_long page)
                (pg_tok_count page + 1) (pg_page_no page) in
  if negb (spellcheck_func tok) then
    let errors := mk_counts (bk_all errors + 1) (bk_long errors)
                    (bk_tok_count errors) (bk_page_errors errors) in
    let page := mk_page (pg_all page + 1) (pg_long page)
                  (pg_tok_count page) (pg_page_no page) in
    if len tok >? long_min then
      (mk_counts (bk_all errors) (bk_long errors + 1)
         (bk_tok_count errors) (bk_page_errors errors),
       mk_page (pg_all page) (pg_long page + 1)
         (pg_tok_count page) (pg_page_no page))
    else (errors, page)
  else (errors, page).

(** The body of the loop over the pieces of the text, for the piece [p]. *)
Definition count_segment (st : book_counts * page_record) (p : str)
  : book_counts * page_record :=
  let (errors, page) := st in
  if startswith p (text "Page") then
    let page := mk_page (pg_all page) (pg_long page) (pg_tok_count page) p in
    (mk_counts (bk_all errors) (bk_long errors) (bk_tok_count errors)
       (bk_page_errors errors ++ [page]),
     new_page)
  else
    match p with
    | [] => st
    | _ :: _ => fold_left count_token (token_regex p) st
    end.

(** The two dictionaries when the loop over the pieces [segs] ends. *)
Definition count_segments (segs : list str) : book_counts * page_record :=
  fold_left count_segment segs (new_counts, new_page).

Definition calculate_error_rate (t : str) : exn + book_record :=
  let errors := fst (count_segments (re_split isdigit t)) in
  match truediv (bk_all errors) (bk_tok_count errors) with
  | inl e => inl e
  | inr error_rate =>
      match truediv (bk_long errors) (bk_tok_count errors) with
      | inl e => inl e
      | inr long_rate =>
          inr (mk_book (bk_all errors) (bk_long errors)
                 (bk_tok_count errors) (bk_page_errors errors)
                 error_rate long_rate)
      end
  end.

End CalculateErrorRate.

(** ** JSON values and the two stores *)

(** What [json.load] can return and [json.dump] can take.  A dictionary is a
    finite map from strings. *)
#[warnings="-register-all"]
Inductive value : Type :=
| VNull
| VBool (b : bool)
| VInt (z : Z)
| VFloat (q : Q)
| VStr (s : str)
| VList (l : list value)
| VDict (d : gmap str value).

Definition key_all : str := text "all".
Definition key_long : str := text "long".
Definition key_tok_count : str := text "tok_count".
Definition key_page_no : str := text "page_no".
Definition key_page_errors : str := text "page_errors".
Definition key_error_rate : str := text "error_rate".
Definition key_long_tokens_error_rate : str := text "long_tokens_error_rate".

(** The dictionary of one page, as a value. *)
Definition value_of_page (p : page_record) : value :=
  VDict (<[key_page_no := VStr (pg_page_no p)]>
         (<[key_tok_count := VInt (pg_tok_count p)]>
          (<[key_long := VInt (pg_long p)]>
           (<[key_all := VInt (pg_all p)]> ∅)))).

(** The dictionary [calculate_error_rate] returns, as a map. *)
Definition dict_of_book (r : book_record) : gmap str value :=
  <[key_long_tokens_error_rate := VFloat (long_tokens_error_rate r)]>
  (<[key_error_rate := VFloat (error_rate r)]>
   (<[key_page_errors := VList (List.map value_of_page (page_errors r))]>
    (<[key_tok_count := VInt (tok_count r)]>
     (<[key_long := VInt (long r)]>
      (<[key_all := VInt (all r)]> ∅))))).

(** [t.split(sep)[-1]] for a separator that is not empty: the text behind the
    last occurrence of [sep] that a scan from the left finds, [t] itself when
    there is none.  [piece] is the text behind the last occurrence found so
    far. *)
Fixpoint split_last_from (fuel : nat) (sep piece t : str) : str :=
  match fuel with
  | O => piece
  | S fuel' =>
      match t with
      | [] => piece
      | _ :: t' =>
          match strip_prefix sep t with
          | Some rest => split_last_from fuel' sep rest rest
          | None => split_last_from fuel' sep piece t'
          end
      end
  end.

Definition split_last (sep t : str) : str :=
  split_last_from (List.length t) sep t t.

(** [del error_data[v_uri]["page_errors"]]: the mapping it leaves and the
    exception it raises, if any. *)
Definition del_page_errors (v_uri : str) (error_data : gmap str value)
  : gmap str value * option exn :=
  match error_data !! v_uri with
  | None => (error_data, Some KeyError)
  | Some (VDict d) =>
      match d !! key_page_errors with
      | Some _ =>
          (<[v_uri := VDict (delete key_page_errors d)]> error_data, None)
      | None => (error_data, Some KeyError)
      end
  | Some _ => (error_data, Some TypeError)
  end.

(** ** [collect_spellcheck_error_data_in_file] *)

Section Collect.

Variable isdigit : N -> bool.
(** [d.check], the dictionary of the spell checker. *)
Variable check_with_pyEnchant : str -> bool.
(** [ar_tok], the token pattern of the [openiti] library. *)
Variable ar_tok : str -> list str.
(** [os.path.basename] and [os.path.join]. *)
Variable basename : str -> str.
Variable path_join : str -> str -> str.
(** [json.dump] with the options of the call, as the text written, and
    [json.load], which fails on a text that is not JSON. *)
Variable json_dumps : value -> str.
Variable json_loads : str -> option value.
(** Whether [open(path, mode="w")] succeeds. *)
Variable writable : str -> bool.

Definition out_path (outfolder fp : str) : str :=
  path_join outfolder (basename fp ++ text "_error_data.json").

(** The conditional of the function: the mapping and the files it leaves,
    and the exception that ends it, if any.  The argument
    [spellcheck_func] is not passed on: [calculate_error_rate] is called
    with its defaults. *)
Definition load_or_compute (fp : str) (spellcheck_func : str -> bool)
    (outfolder : str) (error_data : gmap str value) (overwrite : bool)
    (files : gmap str str)
  : gmap str value * gmap str str * option exn :=
  let v_uri := basename fp in
  let outfp := out_path outfolder fp in
  if overwrite || negb (bool_decide (is_Some (files !! outfp))) then
    match files !! fp with
    | None => (error_data, files, Some FileNotFoundError)
    | Some t =>
        let t := split_last (text "#META#Header#End") t in
        match calculate_error_rate isdigit check_with_pyEnchant ar_tok 8 t
        with
        | inl e => (error_data, files, Some e)
        | inr r =>
            let error_data := <[v_uri := VDict (dict_of_book r)]> error_data in
            if writable outfp then
              (error_data,
               <[outfp := json_dumps (VDict (dict_of_book r))]> files,
               None)
            else (error_data, files, Some OSError)
        end
    end
  else
    match files !! outfp with
    | None => (error_data, files, Some FileNotFoundError)
    | Some content =>
        match json_loads content with
        | None => (error_data, files, Some JSONDecodeError)
        | Some v => (<[v_uri := v]> error_data, files, None)
        end
    end.

Definition collect_spellcheck_error_data_in_file (fp : str)
    (spellcheck_func : str -> bool) (outfolder : str)
    (error_data : gmap str value) (overwrite : bool)
    (files : gmap str str)
  : gmap str value * gmap str str * option exn :=
  match load_or_compute fp spellcheck_func outfolder error_data overwrite
          files with
  | (error_data, files, Some e) => (error_data, files, Some e)
  | (error_data, files, None) =>
      let (error_data, raised) := del_page_errors (basename fp) error_data in
      (error_data, files, raised)
  end.

End Collect.

(** The digits of ASCII: the class [\d] on the code points below 128. *)
Definition ascii_digit (c : N) : bool := (48 <=? c)%N && (c <=? 57)%N.

(** The word characters of ASCII: letters, digits and the underscore. *)
Definition ascii_word (c : N) : bool :=
  ascii_digit c || ((65 <=? c)%N && (c <=? 90)%N)
  || ((97 <=? c)%N && (c <=? 122)%N) || (c =? 95)%N.

(** The matches of the token pattern [[A-Za-z0-9_]+], the runs of word
    characters, from the left.  [cur] holds, reversed, the run being read. *)
Fixpoint word_runs_from (cur s : str) : list str :=
  match s with
  | [] => match cur with [] => [] | _ => [List.rev cur] end
  | c :: s' =>
      if ascii_word c then word_runs_from (c :: cur) s'
      else match cur with
           | [] => word_runs_from [] s'
           | _ => List.rev cur :: word_runs_from [] s'
           end
  end.

Definition word_runs (s : str) : list str := word_runs_from [] s.

(** [a == b] on two strings. *)
Fixpoint str_eqb (a b : str) : bool :=
  match a, b with
  | [], [] => true
  | c :: a', d :: b' => N.eqb c d && str_eqb a' b'
  | _, _ => false
  end.

(** ** The vocabulary of the properties *)

(** A token counts as a long error when the spell checker rejects it and
    it has more than [long_min] characters. *)
Definition long_error (spellcheck_func : str -> bool) (long_min : Z)
    (tok : str) : bool :=
  negb (spellcheck_func tok) && (len tok >? long_min).

Definition page_ordered (p : page_record) : Prop :=
  0 <= pg_long p <= pg_all p /\ pg_all p <= pg_tok_count p.

Definition sum_tok_count (pages : list page_record) : Z :=
  fold_right (fun p n => pg_tok_count p + n) 0 pages.

(** What every step of the loop keeps: in the book, in the page being read
    and in every closed page the long errors are among the errors and the
    errors among the tokens, and the tokens of the book are those of the
    closed pages and of the page being read. *)
Definition counts_ok (st : book_counts * page_record) : Prop :=
  0 <= bk_long (fst st) <= bk_all (fst st)
  /\ bk_all (fst st) <= bk_tok_count (fst st)
  /\ page_ordered (snd st)
  /\ Forall page_ordered (bk_page_errors (fst st))
  /\ bk_tok_count (fst st)
     = sum_tok_count (bk_page_errors (fst st)) + pg_tok_count (snd st).

(** The tokens the loop counts in the piece [p], in the order it reads them. *)
Definition tokens_of_segment (token_regex : str -> list str) (p : str)
  : list str :=
  if startswith p (text "Page") then []
  else match p with
       | [] => []
       | _ :: _ => token_regex p
       end.

Definition tokens_of_segments (token_regex : str -> list str)
    (segs : list str) : list str :=
  flat_map (tokens_of_segment token_regex) segs.

(** The number of elements of [toks] that satisfy [f], as an integer. *)
Definition count_if (f : str -> bool) (toks : list str) : Z :=
  Z.of_nat (List.length (List.filter f toks)).

(** The token count of the book [t]: the entry [tok_count] of [errors] when
    the loop ends. *)
Definition token_count (isdigit : N -> bool) (spellcheck_func : str -> bool)
    (token_regex : str -> list str) (long_min : Z) (t : str) : Z :=
  bk_tok_count
    (fst (count_segments spellcheck_func token_regex long_min
            (re_split isdigit t))).

(** The text and the spell checker of the worked example. *)
Definition example_text : str :=
  text "PageV01P001hello world PageV01P002foo".

Definition example_spellcheck (tok : str) : bool :=
  negb (str_eqb tok (text "foo")).

(** The result of [re.split] alternates text and matches, and starts and
    ends with text: [texts] are its elements at the even positions, [markers]
    those at the odd positions. *)
Fixpoint texts (segs : list str) : list str :=
  match segs with
  | x :: _ :: segs' => x :: texts segs'
  | _ => segs
  end.

Fixpoint markers (segs : list str) : list str :=
  match segs with
  | _ :: m :: segs' => m :: markers segs'
  | _ => []
  end.

(** The dictionary of a page after the tokens [toks] have been added to the
    counts of [page], under the number [page_no]. *)
Definition page_after (spellcheck_func : str -> bool) (long_min : Z)
    (page : page_record) (toks : list str) (page_no : str) : page_record :=
  mk_page
    (pg_all page + count_if (fun tok => negb (spellcheck_func tok)) toks)
    (pg_long page + count_if (long_error spellcheck_func long_min) toks)
    (pg_tok_count page + Z.of_nat (List.length toks))
    page_no.

(** The pages a list of pieces gives, the first of them on top of the counts
    of [page]: each piece at an even position with the marker behind it. *)
Fixpoint pages_from (spellcheck_func : str -> bool)
    (token_regex : str -> list str) (long_min : Z)
    (page : page_record) (segs : list str) : list page_record :=
  match segs with
  | x :: m :: segs' =>
      page_after spellcheck_func long_min page
        (tokens_of_segment token_regex x) m
      :: pages_from spellcheck_func token_regex long_min new_page segs'
  | _ => []
  end.

(** The piece [x] is empty or the token pattern has no match in it. *)
Definition no_token (token_regex : str -> list str) (x : str) : Prop :=
  x = [] \/ token_regex x = [].

(** A file system for the examples: [posixpath.basename] and, for a name
    that is not absolute, [posixpath.join]; a [json] pair that writes a fixed
    text and reads every file as the object [cached]. *)
Definition posix_basename (p : str) : str := split_last (text "/") p.

Definition posix_join (folder name : str) : str :=
  match folder with
  | [] => name
  | _ :: _ =>
      if startswith (List.rev folder) (text "/") then folder ++ name
      else folder ++ text "/" ++ name
  end.

Definition demo_dumps (v : value) : str := text "{ }".

Definition demo_loads (cached : gmap str value) (content : str)
  : option value :=
  Some (VDict cached).

Definition demo_fp : str := text "corpus/0255Jahiz.Hayawan-ara1".

Definition demo_outfp : str :=
  text "error_data/0255Jahiz.Hayawan-ara1_error_data.json".

(** A run that computes: the book is there, its file of error data is not. *)
Definition demo_computed : gmap str value * gmap str str * option exn :=
  collect_spellcheck_error_data_in_file ascii_digit example_spellcheck
    word_runs posix_basename posix_join demo_dumps (demo_loads ∅)
    (fun _ => true)
    demo_fp example_spellcheck (text "error_data") ∅ false
    {[ demo_fp := text "#META#Header#End" ++ example_text ]}.

(** No match of the page-marker pattern starts inside the piece [x]. *)
Definition marker_free (isdigit : N -> bool) (x : str) : Prop :=
  forall a b, x = a ++ b -> match_marker isdigit b = None.

(** The text [sep] occurs in the text [t]. *)
Definition occurs (sep t : str) : Prop :=
  exists a b, t = a ++ sep ++ b.

(** ** [collect_spellcheck_error_data_in_folder] *)

(** [sub in s] *)
Fixpoint contains (sub s : str) : bool :=
  match strip_prefix sub s with
  | Some _ => true
  | None =>
      match s with
      | [] => false
      | _ :: s' => contains sub s'
      end
  end.

(** [sep.join(parts)] *)
Fixpoint join (sep : str) (parts : list str) : str :=
  match parts with
  | [] => []
  | [x] => x
  | x :: parts' => x ++ sep ++ join sep parts'
  end.

Definition chr_tab : str := [9%N].
Definition chr_newline : str := [10%N].

(** [header] and [cols = header[1:]] *)
Definition header : list str :=
  [text "uri"; key_all; key_long; key_error_rate;
   key_long_tokens_error_rate; key_tok_count].

Definition cols : list str := List.tl header.

(** The test of the loop: [lang_code] is [None] or a string; without one,
    or with the empty one, every file is checked. *)
Definition check_lang (lang_code : option str) (fp : str) : bool :=
  match lang_code with
  | None | Some [] => true
  | Some (c :: code) => contains (text "-" ++ c :: code) fp
  end.

(** [error_data[v_uri][col]] *)
Definition lookup_col (error_data : gmap str value) (v_uri col : str)
  : exn + value :=
  match error_data !! v_uri with
  | None => inl KeyError
  | Some (VDict d) =>
      match d !! col with
      | Some v => inr v
      | None => inl KeyError
      end
  | Some _ => inl TypeError
  end.

(** What a handle opened with [mode="a"] does on [write]: the text goes
    behind what the file holds.  (Python keeps the text in a buffer until the
    handle is closed; for a file that nothing else reads or writes in between
    that is the same.) *)
Definition append_to (path row : str) (files : gmap str str)
  : gmap str str :=
  <[path := default [] (files !! path) ++ row]> files.

Section Folder.

Variable isdigit : N -> bool.
Variable check_with_pyEnchant : str -> bool.
Variable ar_tok : str -> list str.
Variable basename : str -> str.
Variable path_join : str -> str -> str.
Variable json_dumps : value -> str.
Variable json_loads : str -> option value.
Variable writable : str -> bool.
(** [get_all_text_files_in_folder] of the [openiti] library: the paths of
    the text files under a folder, in the order it yields them.  The files
    the run writes are no text files of a book, so the listing is taken as it
    is when the run starts. *)
Variable get_all_text_files_in_folder : str -> list str.
(** [str] on a value. *)
Variable py_str : value -> str.

(** [[str(error_data[v_uri][col]) for col in cols]], from the left. *)
Fixpoint tsv_cells (error_data : gmap str value) (v_uri : str)
    (columns : list str) : exn + list str :=
  match columns with
  | [] => inr []
  | col :: columns' =>
      match lookup_col error_data v_uri col with
      | inl e => inl e
      | inr v =>
          match tsv_cells error_data v_uri columns' with
          | inl e => inl e
          | inr cells => inr (py_str v :: cells)
          end
      end
  end.

(** The line of a book in the table. *)
Definition tsv_line (error_data : gmap str value) (v_uri : str)
  : exn + str :=
  match tsv_cells error_data v_uri cols with
  | inl e => inl e
  | inr cells => inr (join chr_tab (v_uri :: cells) ++ chr_newline)
  end.

(** The loop over the files.  The call for a file passes [fp], the mapping,
    [spellcheck_func] and [overwrite]; the folder of the files of error data
    is the default of the function called, not the [outfolder] of the
    caller. *)
Fixpoint collect_files (fps : list str) (tsv_fp : str)
    (lang_code : option str) (spellcheck_func : str -> bool)
    (overwrite : bool) (error_data : gmap str value) (files : gmap str str)
  : gmap str value * gmap str str * option exn :=
  match fps with
  | [] => (error_data, files, None)
  | fp :: fps' =>
      if check_lang lang_code fp then
        match collect_spellcheck_error_data_in_file isdigit
                check_with_pyEnchant ar_tok basename path_join json_dumps
                json_loads writable fp spellcheck_func (text "error_data")
                error_data overwrite files with
        | (error_data, files, Some e) => (error_data, files, Some e)
        | (error_data, files, None) =>
            match tsv_line error_data (basename fp) with
            | inl e => (error_data, files, Some e)
            | inr line =>
                collect_files fps' tsv_fp lang_code spellcheck_func overwrite
                  error_data (append_to tsv_fp line files)
            end
        end
      else
        collect_files fps' tsv_fp lang_code spellcheck_func overwrite
          error_data files
  end.

(** The function: the mapping it has built when it ends, which is local to
    it, the files it leaves and the exception that ends it, if any. *)
Definition collect_spellcheck_error_data_in_folder (folder tsv_fp json_fp
    outfolder : str) (lang_code : option str)
    (spellcheck_func : str -> bool) (overwrite : bool)
    (files : gmap str str)
  : gmap str value * gmap str str * option exn :=
  let error_data : gmap str value := ∅ in
  if writable tsv_fp then
    let files := <[tsv_fp := join chr_tab header ++ chr_newline]> files in
    match collect_files (get_all_text_files_in_folder folder) tsv_fp
            lang_code spellcheck_func overwrite error_data files with
    | (error_data, files, Some e) => (error_data, files, Some e)
    | (error_data, files, None) =>
        if writable json_fp then
          (error_data, <[json_fp := json_dumps (VDict error_data)]> files,
           None)
        else (error_data, files, Some OSError)
    end
  else (error_data, files, Some OSError).

End Folder.

(** Every entry of the mapping is a dictionary without the key
    [page_errors]. *)
Definition without_pages (error_data : gmap str value) : Prop :=
  forall u v, error_data !! u = Some v ->
              exists d : gmap str value,
                v = VDict d /\ d !! key_page_errors = None.

(** The record of the worked example, a file system that holds the book of
    the example, a listing of two files, of which one is Arabic, and a run
    over it. *)
Definition example_book : book_record :=
  mk_book 1 0 3
    [mk_page 0 0 0 (text "PageV01P001"); mk_page 0 0 2 (text "PageV01P002")]
    (1 # 3) (0 # 3).

Definition demo_files : gmap str str :=
  {[ demo_fp := text "#META#Header#End" ++ example_text ]}.

Definition demo_listing (folder : str) : list str :=
  [demo_fp; text "corpus/0310Tabari.Tarikh-per1"].

Definition demo_str (v : value) : str :=
  match v with
  | VInt 0 => text "0"
  | VInt _ => text "n"
  | _ => text "x"
  end.

Definition demo_run (writable : str -> bool)
  : gmap str value * gmap str str * option exn :=
  collect_spellcheck_error_data_in_folder ascii_digit example_spellcheck
    word_runs posix_basename posix_join demo_dumps (demo_loads ∅) writable
    demo_listing demo_str
    (text "corpus") (text "corpus.tsv") (text "corpus.json")
    (text "error_data") (Some (text "ara")) example_spellcheck false
    demo_files.

(** The file of the mapping cannot be opened, every other file can. *)
Definition demo_no_json (path : str) : bool :=
  negb (str_eqb path (text "corpus.json")).

(** * Properties *)

(** Inside the sections below the functions of the program are written
    without the parameters the section fixes; [unfold_def] unfolds the
    function itself. *)
Tactic Notation "unfold_def" "count_token" := unfold count_token.
Tactic Notation "unfold_def" "count_segment" := unfold count_segment.
Tactic Notation "unfold_def" "count_segments" := unfold count_segments.
Tactic Notation "unfold_def" "calculate_error_rate" :=
  unfold calculate_error_rate.
Tactic Notation "unfold_def" "load_or_compute" := unfold load_or_compute.
Tactic Notation "unfold_def" "collect_spellcheck_error_data_in_file" :=
  unfold collect_spellcheck_error_data_in_file.

(** ** The pattern of the page markers *)

Section RegexFacts.

Variable isdigit : N -> bool.

Lemma strip_prefix_app prefix s rest :
  strip_prefix prefix s = Some rest -> s = prefix ++ rest.
Proof.
  revert s.
  induction prefix as [|c prefix IH]; intros s; simpl.
  - intros [= ->]. reflexivity.
  - destruct s as [|d s]; [discriminate|].
    destruct (N.eqb_spec c d) as [->|_]; [|discriminate].
    intros H. rewrite (IH _ H). reflexivity.
Qed.

Lemma span_app f s : s = fst (span f s) ++ snd (span f s).
Proof.
  induction s as [|c s IH]; simpl; [reflexivity|].
  destruct (f c); [|reflexivity].
  destruct (span f s) as [run rest]; simpl in *.
  rewrite <- IH. reflexivity.
Qed.

Lemma match_digits_app s run rest :
  match_digits isdigit s = Some (run, rest) -> s = run ++ rest.
Proof.
  unfold match_digits. pose proof (span_app isdigit s) as Hs.
  destruct (span isdigit s) as [[|c run'] rest']; [discriminate|].
  intros [= <- <-]. exact Hs.
Qed.

Lemma match_digits_P_digits_app s m rest :
  match_digits_P_digits isdigit s = Some (m, rest) -> s = m ++ rest.
Proof.
  revert m rest.
  induction s as [|c s IH]; intros m rest; simpl; [discriminate|].
  assert (Hat : (if (c =? chr_P)%N
                 then match match_digits isdigit s with
                      | Some (d2, rest0) => Some (c :: d2, rest0)
                      | None => None
                      end
                 else None) = Some (m, rest) -> c :: s = m ++ rest).
  { destruct (c =? chr_P)%N; [|discriminate].
    destruct (match_digits isdigit s) as [[d2 rest0]|] eqn:Hd;
      [|discriminate].
    intros [= <- <-]. rewrite (match_digits_app _ _ _ Hd). reflexivity. }
  destruct (isdigit c); [|exact Hat].
  destruct (match_digits_P_digits isdigit s) as [[m' rest']|];
    [|exact Hat].
  intros [= <- <-]. rewrite (IH _ _ eq_refl). reflexivity.
Qed.

(** A match is a prefix of the text it is found in, and starts with
    [PageV]. *)
Lemma match_marker_app s m rest :
  match_marker isdigit s = Some (m, rest) ->
  s = m ++ rest /\ exists m', m = text "PageV" ++ m'.
Proof.
  unfold match_marker.
  destruct (strip_prefix (text "PageV") s) as [[|c s']|] eqn:Hp;
    try discriminate.
  destruct (isdigit c); [|discriminate].
  destruct (match_digits_P_digits isdigit s') as [[m' rest']|] eqn:Hm;
    [|discriminate].
  intros [= <- <-]. split.
  - rewrite (strip_prefix_app _ _ _ Hp).
    rewrite (match_digits_P_digits_app _ _ _ Hm).
    reflexivity.
  - eexists; reflexivity.
Qed.

Lemma match_marker_startswith s m rest :
  match_marker isdigit s = Some (m, rest) ->
  startswith m (text "Page") = true.
Proof.
  intros H. destruct (match_marker_app _ _ _ H) as [_ [m' ->]].
  reflexivity.
Qed.

(** Every element [re.split] puts at an odd position is a match of the
    pattern, and so starts with [Page]. *)
Lemma re_split_from_markers fuel cur t :
  Forall (fun m => startswith m (text "Page") = true)
    (markers (re_split_from isdigit fuel cur t)).
Proof.
  revert cur t.
  induction fuel as [|fuel IH]; intros cur t; simpl; [constructor|].
  destruct (match_marker isdigit t) as [[m rest]|] eqn:Hm.
  - simpl. constructor; [|apply IH].
    exact (match_marker_startswith _ _ _ Hm).
  - destruct t as [|c t']; [constructor|apply IH].
Qed.

Lemma re_split_markers t :
  Forall (fun m => startswith m (text "Page") = true)
    (markers (re_split isdigit t)).
Proof. apply re_split_from_markers. Qed.

(** The pieces of [re.split], put together again, are the text. *)
Lemma re_split_from_concat fuel cur t :
  (List.length t <= fuel)%nat ->
  concat (re_split_from isdigit fuel cur t) = List.rev cur ++ t.
Proof.
  revert cur t.
  induction fuel as [|fuel IH]; intros cur t Hlen; simpl.
  - rewrite List.app_nil_r. reflexivity.
  - destruct (match_marker isdigit t) as [[m rest]|] eqn:Hm.
    + destruct (match_marker_app _ _ _ Hm) as [-> [m' ->]].
      simpl. rewrite IH; [reflexivity|].
      rewrite List.length_app in Hlen. simpl in Hlen. lia.
    + destruct t as [|c t']; simpl.
      * rewrite List.app_nil_r. reflexivity.
      * rewrite IH; [|simpl in Hlen; lia].
        simpl. rewrite <- List.app_assoc. reflexivity.
Qed.

Lemma re_split_concat t : concat (re_split isdigit t) = t.
Proof. apply (re_split_from_concat (List.length t) [] t). lia. Qed.

(** [length t] steps are enough: more of them change nothing. *)
Lemma re_split_from_fuel fuel fuel' cur t :
  (List.length t <= fuel)%nat -> (List.length t <= fuel')%nat ->
  re_split_from isdigit fuel cur t = re_split_from isdigit fuel' cur t.
Proof.
  revert fuel' cur t.
  induction fuel as [|fuel IH]; intros [|fuel'] cur t Hlen Hlen'.
  - reflexivity.
  - destruct t; [|simpl in Hlen; lia]. simpl.
    rewrite List.app_nil_r. reflexivity.
  - destruct t; [|simpl in Hlen'; lia]. simpl.
    rewrite List.app_nil_r. reflexivity.
  - simpl.
    destruct (match_marker isdigit t) as [[m rest]|] eqn:Hm.
    + destruct (match_marker_app _ _ _ Hm) as [Ht [m' ->]].
      subst t. rewrite List.length_app in Hlen, Hlen'.
      simpl in Hlen, Hlen'.
      f_equal. f_equal. apply IH; lia.
    + destruct t as [|c t']; [reflexivity|].
      simpl in Hlen, Hlen'. apply IH; lia.
Qed.

End RegexFacts.

(** [re.split] consults the class [\d] on the characters of the text only. *)
Section RegexExt.

Variables isdigit isdigit' : N -> bool.

Local Abbreviation agree := (Forall (fun c => isdigit c = isdigit' c)).

Lemma span_ext s : agree s -> span isdigit s = span isdigit' s.
Proof.
  induction 1 as [|c s Hc _ IH]; simpl; [reflexivity|].
  rewrite Hc, IH. reflexivity.
Qed.

Lemma match_digits_ext s :
  agree s -> match_digits isdigit s = match_digits isdigit' s.
Proof. intros H. unfold match_digits. rewrite (span_ext s H). reflexivity. Qed.

Lemma match_digits_P_digits_ext s :
  agree s -> match_digits_P_digits isdigit s = match_digits_P_digits isdigit' s.
Proof.
  induction 1 as [|c s Hc Hs IH]; simpl; [reflexivity|].
  rewrite Hc, IH, (match_digits_ext s Hs). reflexivity.
Qed.

Lemma match_marker_ext s :
  agree s -> match_marker isdigit s = match_marker isdigit' s.
Proof.
  intros H. unfold match_marker.
  destruct (strip_prefix (text "PageV") s) as [[|c s']|] eqn:Hp;
    try reflexivity.
  apply strip_prefix_app in Hp. subst s.
  apply Forall_app in H as [_ H].
  apply Forall_cons in H as [Hc Hs'].
  rewrite Hc, (match_digits_P_digits_ext s' Hs'). reflexivity.
Qed.

Lemma re_split_from_ext fuel cur t :
  agree t -> re_split_from isdigit fuel cur t = re_split_from isdigit' fuel cur t.
Proof.
  revert cur t.
  induction fuel as [|fuel IH]; intros cur t H; simpl; [reflexivity|].
  rewrite <- (match_marker_ext t H).
  destruct (match_marker isdigit t) as [[m rest]|] eqn:Hm.
  - destruct (match_marker_app _ _ _ _ Hm) as [-> _].
    apply Forall_app in H as [_ H]. rewrite (IH _ _ H). reflexivity.
  - destruct t as [|c t']; [reflexivity|].
    apply Forall_cons in H as [_ H]. apply IH, H.
Qed.

Lemma re_split_ext t :
  agree t -> re_split isdigit t = re_split isdigit' t.
Proof. apply re_split_from_ext. Qed.

End RegexExt.

(** ** Lists of pieces *)

Lemma pieces_ind (P : list str -> Prop) :
  P [] -> (forall x, P [x]) -> (forall x m segs, P segs -> P (x :: m :: segs)) ->
  forall segs, P segs.
Proof.
  intros Hnil Hone Hstep segs.
  assert (H : P segs /\ forall x, P (x :: segs)); [|exact (proj1 H)].
  induction segs as [|m segs [IH1 IH2]].
  - split; [exact Hnil|exact Hone].
  - split; [apply IH2|].
    intros x. apply Hstep, IH1.
Qed.

Lemma tokens_of_segment_marker token_regex m :
  startswith m (text "Page") = true -> tokens_of_segment token_regex m = [].
Proof. unfold tokens_of_segment. intros ->. reflexivity. Qed.

Lemma tokens_of_segment_text token_regex c x :
  startswith (c :: x) (text "Page") = false ->
  tokens_of_segment token_regex (c :: x) = token_regex (c :: x).
Proof. unfold tokens_of_segment. intros ->. reflexivity. Qed.

(** The tokens read are those of the pieces at the even positions, as long
    as the pieces at the odd positions start with [Page]. *)
Lemma tokens_of_segments_texts token_regex segs :
  Forall (fun m => startswith m (text "Page") = true) (markers segs) ->
  tokens_of_segments token_regex segs
  = tokens_of_segments token_regex (texts segs).
Proof.
  induction segs as [| x | x m segs IH] using pieces_ind;
    [reflexivity | reflexivity |].
  cbn [markers texts]. intros Hm.
  apply Forall_cons in Hm as [Hm Hrest].
  unfold tokens_of_segments in *. cbn [flat_map].
  rewrite (tokens_of_segment_marker _ _ Hm), IH by exact Hrest.
  reflexivity.
Qed.


(** ** The counters of the loop *)

Section CountersFacts.

Variable isdigit : N -> bool.
Variable spellcheck_func : str -> bool.
Variable token_regex : str -> list str.
Variable long_min : Z.

Local Abbreviation count_token := (count_token spellcheck_func long_min).
Local Abbreviation count_segment :=
  (count_segment spellcheck_func token_regex long_min).
Local Abbreviation count_segments :=
  (count_segments spellcheck_func token_regex long_min).
Local Abbreviation calculate_error_rate :=
  (calculate_error_rate isdigit spellcheck_func token_regex long_min).

Lemma sum_tok_count_app pages p :
  sum_tok_count (pages ++ [p]) = sum_tok_count pages + pg_tok_count p.
Proof.
  induction pages as [|q pages IH]; simpl; [lia|].
  rewrite IH. lia.
Qed.

Lemma sum_tok_count_nonneg pages :
  Forall page_ordered pages -> 0 <= sum_tok_count pages.
Proof.
  induction 1 as [|q pages Hq _ IH]; simpl; [lia|].
  unfold page_ordered in Hq. lia.
Qed.

Lemma counts_ok_init : counts_ok (new_counts, new_page).
Proof.
  unfold counts_ok, page_ordered; simpl.
  split; [lia|]. split; [lia|]. split; [lia|].
  split; [constructor|reflexivity].
Qed.

Lemma count_token_ok st tok : counts_ok st -> counts_ok (count_token st tok).
Proof.
  destruct st as [errors page].
  unfold counts_ok, page_ordered; unfold_def count_token; simpl.
  intros (Hl & Ha & (Hpl & Hpa) & Hpages & Hsum).
  destruct (spellcheck_func tok); simpl;
    [|destruct (len tok >? long_min); simpl];
    (split; [lia|]; split; [lia|]; split; [lia|];
     split; [assumption|lia]).
Qed.

Lemma count_tokens_ok toks st :
  counts_ok st -> counts_ok (fold_left count_token toks st).
Proof.
  revert st.
  induction toks as [|tok toks IH]; intros st Hst; simpl; [assumption|].
  apply IH, count_token_ok, Hst.
Qed.

Lemma count_segment_ok st p : counts_ok st -> counts_ok (count_segment st p).
Proof.
  intros Hst. unfold_def count_segment.
  destruct st as [errors page].
  destruct (startswith p (text "Page")).
  - destruct Hst as (Hl & Ha & Hp & Hpages & Hsum); simpl in *.
    unfold counts_ok; simpl.
    split; [exact Hl|]. split; [exact Ha|].
    split; [unfold page_ordered; simpl; lia|].
    split.
    + apply Forall_app; split; [assumption|].
      constructor; [|constructor]. exact Hp.
    + rewrite sum_tok_count_app; simpl. lia.
  - destruct p; [assumption|].
    apply count_tokens_ok, Hst.
Qed.

Lemma fold_count_segment_ok segs st :
  counts_ok st -> counts_ok (fold_left count_segment segs st).
Proof.
  revert st.
  induction segs as [|p segs IH]; intros st Hst; simpl; [assumption|].
  apply IH, count_segment_ok, Hst.
Qed.

Lemma count_segments_ok segs : counts_ok (count_segments segs).
Proof. apply fold_count_segment_ok, counts_ok_init. Qed.

(** The record returned is the dictionary [errors] at the end of the loop,
    whenever one is returned. *)
Lemma calculate_error_rate_inr t r :
  calculate_error_rate t = inr r ->
  let errors := fst (count_segments (re_split isdigit t)) in
  bk_tok_count errors <> 0
  /\ all r = bk_all errors /\ long r = bk_long errors
  /\ tok_count r = bk_tok_count errors
  /\ page_errors r = bk_page_errors errors
  /\ error_rate r = Qdiv (inject_Z (all r)) (inject_Z (tok_count r))
  /\ long_tokens_error_rate r
     = Qdiv (inject_Z (long r)) (inject_Z (tok_count r)).
Proof.
  unfold_def calculate_error_rate; unfold truediv.
  destruct (Z.eqb_spec
              (bk_tok_count (fst (count_segments (re_split isdigit t)))) 0)
    as [Hz|Hz]; [discriminate|].
  intros [= <-]; simpl. repeat split; try reflexivity. exact Hz.
Qed.

Lemma calculate_error_rate_returns t :
  bk_tok_count (fst (count_segments (re_split isdigit t))) <> 0 ->
  exists r, calculate_error_rate t = inr r.
Proof.
  intros Hz. unfold_def calculate_error_rate; unfold truediv.
  destruct (Z.eqb_spec
              (bk_tok_count (fst (count_segments (re_split isdigit t)))) 0)
    as [Hz'|_]; [contradiction|].
  eexists; reflexivity.
Qed.

Lemma rate_bounds (a b : Z) :
  0 <= a <= b -> 0 < b ->
  (0 <= Qdiv (inject_Z a) (inject_Z b) <= 1)%Q.
Proof.
  intros [Ha Hab] Hb.
  assert (Hb' : (0 < inject_Z b)%Q) by (rewrite (Zlt_Qlt 0 b) in Hb; exact Hb).
  split.
  - apply Qle_shift_div_l; [exact Hb'|].
    rewrite Qmult_0_l. rewrite (Zle_Qle 0 a) in Ha. exact Ha.
  - apply Qle_shift_div_r; [exact Hb'|].
    rewrite Qmult_1_l. rewrite (Zle_Qle a b) in Hab. exact Hab.
Qed.

Lemma count_token_fst st tok :
  fst (count_token st tok)
  = mk_counts
      (bk_all (fst st) + (if spellcheck_func tok then 0 else 1))
      (bk_long (fst st)
       + (if long_error spellcheck_func long_min tok then 1 else 0))
      (bk_tok_count (fst st) + 1)
      (bk_page_errors (fst st)).
Proof.
  destruct st as [[a l n pages] page].
  unfold_def count_token; unfold long_error; simpl.
  destruct (spellcheck_func tok); simpl;
    [|destruct (len tok >? long_min); simpl];
    f_equal; lia.
Qed.

Lemma count_token_snd st tok :
  snd (count_token st tok)
  = mk_page
      (pg_all (snd st) + (if spellcheck_func tok then 0 else 1))
      (pg_long (snd st)
       + (if long_error spellcheck_func long_min tok then 1 else 0))
      (pg_tok_count (snd st) + 1)
      (pg_page_no (snd st)).
Proof.
  destruct st as [errors [a l n no]].
  unfold_def count_token; unfold long_error; simpl.
  destruct (spellcheck_func tok); simpl;
    [|destruct (len tok >? long_min); simpl];
    f_equal; lia.
Qed.

Lemma count_if_cons f tok toks :
  count_if f (tok :: toks) = (if f tok then 1 else 0) + count_if f toks.
Proof.
  unfold count_if; simpl. destruct (f tok); simpl; lia.
Qed.

Lemma count_if_app f toks toks' :
  count_if f (toks ++ toks') = count_if f toks + count_if f toks'.
Proof.
  unfold count_if. rewrite List.filter_app, List.length_app. lia.
Qed.

(** The book counters after the matches [toks]. *)
Lemma count_tokens_fst toks st :
  fst (fold_left count_token toks st)
  = mk_counts
      (bk_all (fst st) + count_if (fun tok => negb (spellcheck_func tok)) toks)
      (bk_long (fst st) + count_if (long_error spellcheck_func long_min) toks)
      (bk_tok_count (fst st) + Z.of_nat (List.length toks))
      (bk_page_errors (fst st)).
Proof.
  revert st.
  induction toks as [|tok toks IH]; intros st.
  - destruct st as [[a l n pages] page]; unfold count_if; simpl.
    f_equal; lia.
  - cbn [fold_left]. rewrite IH, count_token_fst. cbn [bk_all bk_long bk_tok_count bk_page_errors].
    rewrite !count_if_cons. cbn [List.length].
    destruct (spellcheck_func tok); cbn [negb]; f_equal; lia.
Qed.

(** The book counters after the pieces [segs]. *)
Lemma fold_count_segment_fst segs st :
  let toks := tokens_of_segments token_regex segs in
  let errors := fst (fold_left count_segment segs st) in
  bk_all errors
  = bk_all (fst st) + count_if (fun tok => negb (spellcheck_func tok)) toks
  /\ bk_long errors
     = bk_long (fst st) + count_if (long_error spellcheck_func long_min) toks
  /\ bk_tok_count errors
     = bk_tok_count (fst st) + Z.of_nat (List.length toks).
Proof.
  revert st.
  induction segs as [|p segs IH]; intros st.
  - unfold count_if; simpl. lia.
  - cbn [fold_left]. specialize (IH (count_segment st p)).
    cbn zeta in IH. destruct IH as (IHa & IHl & IHn).
    cbn zeta. rewrite IHa, IHl, IHn. clear IHa IHl IHn.
    unfold tokens_of_segments. cbn [flat_map].
    rewrite !count_if_app, List.length_app.
    fold (tokens_of_segments token_regex segs).
    unfold_def count_segment; unfold tokens_of_segment.
    destruct st as [errors page].
    destruct (startswith p (text "Page")).
    + unfold count_if; simpl. lia.
    + destruct p as [|c p'].
      * unfold count_if; simpl. lia.
      * rewrite count_tokens_fst. simpl. lia.
Qed.

Lemma count_segments_fst segs :
  let toks := tokens_of_segments token_regex segs in
  let errors := fst (count_segments segs) in
  bk_all errors = count_if (fun tok => negb (spellcheck_func tok)) toks
  /\ bk_long errors = count_if (long_error spellcheck_func long_min) toks
  /\ bk_tok_count errors = Z.of_nat (List.length toks).
Proof.
  cbn zeta. unfold_def count_segments.
  destruct (fold_count_segment_fst segs (new_counts, new_page))
    as (Ha & Hl & Hn).
  rewrite Ha, Hl, Hn. simpl. lia.
Qed.

Lemma calculate_error_rate_inl t :
  bk_tok_count (fst (count_segments (re_split isdigit t))) = 0 ->
  calculate_error_rate t = inl ZeroDivisionError.
Proof.
  intros Hz. unfold_def calculate_error_rate; unfold truediv.
  rewrite Hz. reflexivity.
Qed.

Lemma no_token_tokens x :
  no_token token_regex x -> tokens_of_segment token_regex x = [].
Proof.
  unfold tokens_of_segment. intros [-> | Hx].
  - reflexivity.
  - destruct (startswith x (text "Page")); [reflexivity|].
    destruct x; [reflexivity|exact Hx].
Qed.

Lemma tokens_no_token x :
  startswith x (text "Page") = false ->
  tokens_of_segment token_regex x = [] -> no_token token_regex x.
Proof.
  unfold tokens_of_segment, no_token. intros ->.
  destruct x; [left; reflexivity|right; assumption].
Qed.

Lemma flat_map_nil_Forall (f : str -> list str) xs :
  flat_map f xs = [] <-> Forall (fun x => f x = []) xs.
Proof.
  induction xs as [|x xs IH]; simpl.
  - split; [constructor|reflexivity].
  - split.
    + intros H. apply List.app_eq_nil in H as [Hx Hxs].
      constructor; [exact Hx|apply IH, Hxs].
    + intros H. apply Forall_cons in H as [Hx Hxs].
      rewrite Hx. apply IH, Hxs.
Qed.

(** The token count of a book is the number of matches in the pieces of
    its text between the page markers that do not start with [Page]. *)
Lemma token_count_texts t :
  token_count isdigit spellcheck_func token_regex long_min t
  = Z.of_nat
      (List.length
         (tokens_of_segments token_regex (texts (re_split isdigit t)))).
Proof.
  unfold token_count.
  destruct (count_segments_fst (re_split isdigit t)) as (_ & _ & ->).
  rewrite tokens_of_segments_texts by apply re_split_markers.
  reflexivity.
Qed.

(** The page counters after the matches [toks]. *)
Lemma count_tokens_snd toks st :
  snd (fold_left count_token toks st)
  = page_after spellcheck_func long_min (snd st) toks (pg_page_no (snd st)).
Proof.
  unfold page_after. revert st.
  induction toks as [|tok toks IH]; intros st.
  - destruct st as [errors [a l n no]]; unfold count_if; simpl.
    f_equal; lia.
  - cbn [fold_left]. rewrite IH, count_token_snd.
    cbn [pg_all pg_long pg_tok_count pg_page_no].
    rewrite !count_if_cons. cbn [List.length].
    destruct (spellcheck_func tok); cbn [negb]; f_equal; lia.
Qed.

(** X5: a piece that is not empty and does not start with [Page] has every
    match of the token pattern counted, in the book and in the page alike:
    the loop over the piece adds the same numbers of tokens, of errors and of
    long errors to both dictionaries. *)
Lemma text_piece_read st c x :
  startswith (c :: x) (text "Page") = false ->
  let toks := token_regex (c :: x) in
  let st' := count_segment st (c :: x) in
  st' = fold_left count_token toks st
  /\ bk_tok_count (fst st') - bk_tok_count (fst st) = Z.of_nat (List.length toks)
  /\ pg_tok_count (snd st') - pg_tok_count (snd st) = Z.of_nat (List.length toks)
  /\ bk_all (fst st') - bk_all (fst st)
     = count_if (fun tok => negb (spellcheck_func tok)) toks
  /\ pg_all (snd st') - pg_all (snd st)
     = count_if (fun tok => negb (spellcheck_func tok)) toks
  /\ bk_long (fst st') - bk_long (fst st)
     = count_if (long_error spellcheck_func long_min) toks
  /\ pg_long (snd st') - pg_long (snd st)
     = count_if (long_error spellcheck_func long_min) toks.
Proof.
  intros Hp. cbn zeta.
  assert (Hst : count_segment st (c :: x)
                = fold_left count_token (token_regex (c :: x)) st).
  { unfold_def count_segment. destruct st as [errors page].
    rewrite Hp. reflexivity. }
  rewrite Hst. split; [reflexivity|].
  rewrite count_tokens_fst, count_tokens_snd. unfold page_after. simpl.
  repeat split; lia.
Qed.

Lemma count_segment_text errors page x :
  startswith x (text "Page") = false ->
  count_segment (errors, page) x
  = fold_left count_token (tokens_of_segment token_regex x) (errors, page).
Proof.
  intros Hx. unfold_def count_segment. unfold tokens_of_segment.
  rewrite Hx. destruct x; reflexivity.
Qed.

Lemma count_segment_marker errors page m :
  startswith m (text "Page") = true ->
  count_segment (errors, page) m
  = (mk_counts (bk_all errors) (bk_long errors) (bk_tok_count errors)
       (bk_page_errors errors
        ++ [mk_page (pg_all page) (pg_long page) (pg_tok_count page) m]),
     new_page).
Proof. intros Hm. unfold_def count_segment. rewrite Hm. reflexivity. Qed.

(** The list of pages that a list of pieces leaves, when the pieces at the
    odd positions start with [Page] and those at the even positions do not:
    one page for every marker, with the counts of the piece before it. *)
Lemma fold_count_segment_pages segs :
  forall errors page,
    Forall (fun m => startswith m (text "Page") = true) (markers segs) ->
    Forall (fun x => startswith x (text "Page") = false) (texts segs) ->
    bk_page_errors (fst (fold_left count_segment segs (errors, page)))
    = bk_page_errors errors
      ++ pages_from spellcheck_func token_regex long_min page segs.
Proof.
  induction segs as [| x | x m segs IH] using pieces_ind;
    intros errors page Hm Hx.
  - simpl. rewrite List.app_nil_r. reflexivity.
  - cbn [texts] in Hx. apply Forall_cons in Hx as [Hx _].
    cbn [fold_left pages_from].
    rewrite (count_segment_text _ _ _ Hx), count_tokens_fst.
    simpl. rewrite List.app_nil_r. reflexivity.
  - cbn [texts] in Hx. cbn [markers] in Hm.
    apply Forall_cons in Hx as [Hx Hxs].
    apply Forall_cons in Hm as [Hm Hms].
    cbn [fold_left pages_from].
    rewrite (count_segment_text _ _ _ Hx).
    pose proof (count_tokens_fst (tokens_of_segment token_regex x)
                  (errors, page)) as Hfst.
    pose proof (count_tokens_snd (tokens_of_segment token_regex x)
                  (errors, page)) as Hsnd.
    destruct (fold_left count_token (tokens_of_segment token_regex x)
                (errors, page)) as [errors1 page1].
    cbn [fst snd] in Hfst, Hsnd. subst errors1 page1.
    rewrite (count_segment_marker _ _ _ Hm).
    rewrite (IH _ _ Hms Hxs). cbn [bk_page_errors].
    rewrite <- List.app_assoc. reflexivity.
Qed.

(** X6: the list of pages of the record returned for a text none of whose
    pieces between the page markers starts with [Page]: it has one page for
    every marker, under the marker as its number, with the counts of the text
    between the marker before it, or the start of the text, and the marker. *)
Lemma page_errors_between_markers t r :
  Forall (fun x => startswith x (text "Page") = false)
    (texts (re_split isdigit t)) ->
  calculate_error_rate t = inr r ->
  page_errors r
  = pages_from spellcheck_func token_regex long_min new_page
      (re_split isdigit t).
Proof.
  intros Hx Hr.
  destruct (calculate_error_rate_inr t r Hr) as (_ & _ & _ & _ & -> & _).
  unfold_def count_segments.
  rewrite (fold_count_segment_pages _ _ _ (re_split_markers isdigit t) Hx).
  reflexivity.
Qed.

(** C4, as amended: the call fails with [ZeroDivisionError] when the token
    pattern has no match in any piece of the text between the page markers
    that is not empty; and when none of these pieces starts with [Page], it
    returns a record as soon as the pattern has a match in one of them that
    is not empty. *)
Theorem zero_division_when_no_token t :
  (Forall (no_token token_regex) (texts (re_split isdigit t)) ->
   calculate_error_rate t = inl ZeroDivisionError)
  /\ (Forall (fun x => startswith x (text "Page") = false)
        (texts (re_split isdigit t)) ->
      ~ Forall (no_token token_regex) (texts (re_split isdigit t)) ->
      exists r, calculate_error_rate t = inr r).
Proof.
  pose proof (token_count_texts t) as Hn. unfold token_count in Hn.
  split.
  - intros Hno. apply calculate_error_rate_inl. rewrite Hn.
    unfold tokens_of_segments.
    replace (flat_map _ _) with (@nil str); [reflexivity|].
    symmetry. apply flat_map_nil_Forall.
    eapply Forall_impl; [exact Hno|]. apply no_token_tokens.
  - intros Hpage Hsome. apply calculate_error_rate_returns.
    rewrite Hn. intros Hz. apply Hsome.
    assert (Hnil : tokens_of_segments token_regex
                     (texts (re_split isdigit t)) = []).
    { destruct (tokens_of_segments _ _); [reflexivity|]. simpl in Hz. lia. }
    apply flat_map_nil_Forall in Hnil.
    revert Hpage Hnil. generalize (texts (re_split isdigit t)).
    intros xs. induction 1 as [|x xs Hx _ IH]; intros Hnil; [constructor|].
    apply Forall_cons in Hnil as [Hxnil Hxs].
    constructor; [|apply IH, Hxs].
    apply tokens_no_token; assumption.
Qed.

(** C1: a book with a positive token count gets a record whose two rates
    are the quotients of its error counts by its token count, and both
    rates lie between 0 and 1. *)
Theorem rates_of_counted_book t :
  0 < token_count isdigit spellcheck_func token_regex long_min t ->
  exists r,
    calculate_error_rate t = inr r
    /\ tok_count r
       = token_count isdigit spellcheck_func token_regex long_min t
    /\ error_rate r = Qdiv (inject_Z (all r)) (inject_Z (tok_count r))
    /\ long_tokens_error_rate r
       = Qdiv (inject_Z (long r)) (inject_Z (tok_count r))
    /\ (0 <= error_rate r <= 1)%Q
    /\ (0 <= long_tokens_error_rate r <= 1)%Q.
Proof.
  unfold token_count. intros Hpos.
  destruct (calculate_error_rate_returns t) as [r Hr]; [lia|].
  exists r. split; [exact Hr|].
  destruct (calculate_error_rate_inr t r Hr)
    as (_ & Ha & Hl & Hn & _ & Hrate & Hlong).
  destruct (count_segments_ok (re_split isdigit t))
    as (Hll & Haa & _).
  rewrite <- Ha, <- Hl, <- Hn in *.
  split; [reflexivity|]. split; [exact Hrate|]. split; [exact Hlong|].
  rewrite Hrate, Hlong.
  split; apply rate_bounds; lia.
Qed.

(** C6: in the record returned the errors are at least the long errors, in
    the book and in every page of the list, and every token read keeps it
    so in both dictionaries of the loop. *)
Theorem all_at_least_long t r :
  calculate_error_rate t = inr r ->
  all r >= long r
  /\ Forall (fun p => pg_all p >= pg_long p) (page_errors r)
  /\ forall st tok,
       (bk_all (fst st) >= bk_long (fst st) ->
        bk_all (fst (count_token st tok))
        >= bk_long (fst (count_token st tok)))
       /\ (pg_all (snd st) >= pg_long (snd st) ->
           pg_all (snd (count_token st tok))
           >= pg_long (snd (count_token st tok))).
Proof.
  intros Hr.
  destruct (calculate_error_rate_inr t r Hr)
    as (_ & Ha & Hl & _ & Hpages & _).
  destruct (count_segments_ok (re_split isdigit t))
    as (Hll & _ & _ & Hok & _).
  split; [lia|]. split.
  - rewrite Hpages.
    eapply Forall_impl; [exact Hok|].
    intros p Hp. unfold page_ordered in Hp. lia.
  - intros st tok. rewrite count_token_fst, count_token_snd.
    unfold long_error; simpl.
    destruct (spellcheck_func tok); simpl;
      [|destruct (len tok >? long_min)]; split; lia.
Qed.

(** C7: the token counts of the pages of the list add up to at most the
    token count of the book. *)
Theorem pages_tok_count_le_book t r :
  calculate_error_rate t = inr r ->
  sum_tok_count (page_errors r) <= tok_count r.
Proof.
  intros Hr.
  destruct (calculate_error_rate_inr t r Hr)
    as (_ & _ & _ & Hn & Hpages & _).
  destruct (count_segments_ok (re_split isdigit t))
    as (_ & _ & Hpage & _ & Hsum).
  rewrite Hn, Hpages, Hsum.
  unfold page_ordered in Hpage. lia.
Qed.

(** C8: a token adds one to the long counter of the book and of the page
    exactly when the spell checker rejects it and it is longer than the
    threshold; an accepted token leaves both long counters as they were;
    and so the long counter of the book ends as the number of such tokens
    among those read. *)
Theorem long_counts_long_errors :
  (forall st tok,
      bk_long (fst (count_token st tok))
      = bk_long (fst st)
        + (if negb (spellcheck_func tok) && (len tok >? long_min)
           then 1 else 0)
      /\ pg_long (snd (count_token st tok))
         = pg_long (snd st)
           + (if negb (spellcheck_func tok) && (len tok >? long_min)
              then 1 else 0))
  /\ (forall st tok,
        spellcheck_func tok = true ->
        bk_long (fst (count_token st tok)) = bk_long (fst st)
        /\ pg_long (snd (count_token st tok)) = pg_long (snd st))
  /\ (forall t,
        bk_long (fst (count_segments (re_split isdigit t)))
        = count_if
            (fun tok => negb (spellcheck_func tok) && (len tok >? long_min))
            (tokens_of_segments token_regex (re_split isdigit t))).
Proof.
  split; [|split].
  - intros st tok. rewrite count_token_fst, count_token_snd.
    split; reflexivity.
  - intros st tok Hok. rewrite count_token_fst, count_token_snd.
    unfold long_error. rewrite Hok. simpl. split; lia.
  - intros t.
    destruct (count_segments_fst (re_split isdigit t)) as (_ & Hl & _).
    exact Hl.
Qed.

End CountersFacts.

(** ** The worked example and the pieces that start with [Page] *)

Lemma example_text_ascii : Forall (fun c => (c < 128)%N) example_text.
Proof. vm_compute. repeat constructor. Qed.

Lemma example_run_ascii :
  calculate_error_rate ascii_digit example_spellcheck word_runs 8 example_text
  = inr (mk_book 1 0 3
           [mk_page 0 0 0 (text "PageV01P001");
            mk_page 0 0 2 (text "PageV01P002")]
           (1 # 3) (0 # 3)).
Proof. vm_compute. reflexivity. Qed.

(** C2, as amended: on the text of the example, with the runs of word
    characters as tokens, a spell checker that rejects [foo] alone and the
    threshold 8, the book has three tokens, one error and no long error, and
    the list has two pages: the page closed by the first marker, which is
    empty, and the page closed by the second marker, with the two tokens
    between the markers. *)
Theorem example_record (isdigit : N -> bool) :
  (forall c, (c < 128)%N -> isdigit c = ascii_digit c) ->
  calculate_error_rate isdigit example_spellcheck word_runs 8 example_text
  = inr (mk_book 1 0 3
           [mk_page 0 0 0 (text "PageV01P001");
            mk_page 0 0 2 (text "PageV01P002")]
           (1 # 3) (0 # 3)).
Proof.
  intros Hd. unfold calculate_error_rate.
  rewrite (re_split_ext isdigit ascii_digit example_text).
  - vm_compute. reflexivity.
  - eapply Forall_impl; [exact example_text_ascii|]. exact Hd.
Qed.

Lemma example_record_witness :
  (forall c, (c < 128)%N -> ascii_digit c = ascii_digit c)
  /\ calculate_error_rate ascii_digit example_spellcheck word_runs 8
       example_text
     = inr (mk_book 1 0 3
              [mk_page 0 0 0 (text "PageV01P001");
               mk_page 0 0 2 (text "PageV01P002")]
              (1 # 3) (0 # 3)).
Proof.
  split; [reflexivity|].
  apply (example_record ascii_digit). reflexivity.
Defined.

Lemma rates_of_counted_book_witness :
  0 < token_count ascii_digit example_spellcheck word_runs 8 example_text
  /\ exists r,
      calculate_error_rate ascii_digit example_spellcheck word_runs 8
        example_text = inr r
      /\ tok_count r
         = token_count ascii_digit example_spellcheck word_runs 8 example_text
      /\ error_rate r = Qdiv (inject_Z (all r)) (inject_Z (tok_count r))
      /\ long_tokens_error_rate r
         = Qdiv (inject_Z (long r)) (inject_Z (tok_count r))
      /\ (0 <= error_rate r <= 1)%Q
      /\ (0 <= long_tokens_error_rate r <= 1)%Q.
Proof.
  split; [vm_compute; reflexivity|].
  apply (rates_of_counted_book ascii_digit example_spellcheck word_runs 8
           example_text).
  vm_compute. reflexivity.
Defined.

Lemma all_at_least_long_witness :
  calculate_error_rate ascii_digit example_spellcheck word_runs 8 example_text
  = inr (mk_book 1 0 3
           [mk_page 0 0 0 (text "PageV01P001");
            mk_page 0 0 2 (text "PageV01P002")] (1 # 3) (0 # 3))
  /\ 1 >= 0.
Proof.
  split; [vm_compute; reflexivity|].
  apply (all_at_least_long ascii_digit example_spellcheck word_runs 8
           example_text
           (mk_book 1 0 3
              [mk_page 0 0 0 (text "PageV01P001");
               mk_page 0 0 2 (text "PageV01P002")] (1 # 3) (0 # 3))).
  vm_compute. reflexivity.
Defined.

Lemma pages_tok_count_le_book_witness :
  calculate_error_rate ascii_digit example_spellcheck word_runs 8 example_text
  = inr (mk_book 1 0 3
           [mk_page 0 0 0 (text "PageV01P001");
            mk_page 0 0 2 (text "PageV01P002")] (1 # 3) (0 # 3))
  /\ 0 + (2 + 0) <= 3.
Proof.
  split; [vm_compute; reflexivity|].
  apply (pages_tok_count_le_book ascii_digit example_spellcheck word_runs 8
           example_text
           (mk_book 1 0 3
              [mk_page 0 0 0 (text "PageV01P001");
               mk_page 0 0 2 (text "PageV01P002")] (1 # 3) (0 # 3))).
  vm_compute. reflexivity.
Defined.

Lemma zero_division_when_no_token_witness :
  (Forall (no_token word_runs)
     (texts (re_split ascii_digit (text "PageV01P001")))
   /\ calculate_error_rate ascii_digit example_spellcheck word_runs 8
        (text "PageV01P001") = inl ZeroDivisionError)
  /\ (Forall (fun x => startswith x (text "Page") = false)
        (texts (re_split ascii_digit example_text))
      /\ ~ Forall (no_token word_runs)
            (texts (re_split ascii_digit example_text))
      /\ exists r,
          calculate_error_rate ascii_digit example_spellcheck word_runs 8
            example_text = inr r).
Proof.
  assert (Hno : Forall (no_token word_runs)
                  (texts (re_split ascii_digit (text "PageV01P001")))).
  { vm_compute. constructor; [left; reflexivity|].
    constructor; [left; reflexivity|constructor]. }
  assert (Hpage : Forall (fun x => startswith x (text "Page") = false)
                    (texts (re_split ascii_digit example_text))).
  { vm_compute. repeat constructor. }
  assert (Hsome : ~ Forall (no_token word_runs)
                      (texts (re_split ascii_digit example_text))).
  { intros H. vm_compute in H.
    apply Forall_cons in H as [_ H]. apply Forall_cons in H as [[H|H] _];
      discriminate H. }
  split.
  - split; [exact Hno|].
    exact (proj1 (zero_division_when_no_token ascii_digit example_spellcheck
                    word_runs 8 (text "PageV01P001")) Hno).
  - split; [exact Hpage|]. split; [exact Hsome|].
    exact (proj2 (zero_division_when_no_token ascii_digit example_spellcheck
                    word_runs 8 example_text) Hpage Hsome).
Defined.

Lemma long_counts_long_errors_witness :
  example_spellcheck (text "hello") = true
  /\ bk_long
       (fst (count_token example_spellcheck 8 (new_counts, new_page)
               (text "hello"))) = 0
  /\ pg_long
       (snd (count_token example_spellcheck 8 (new_counts, new_page)
               (text "hello"))) = 0.
Proof.
  split; [reflexivity|].
  exact (proj1 (proj2 (long_counts_long_errors ascii_digit example_spellcheck
                         word_runs 8))
           (new_counts, new_page) (text "hello") eq_refl).
Defined.

(** C2 as stated fails: the list of the example is not the single page
    [PageV01P001] with two tokens. *)
Lemma example_pages_not_single :
  ~ exists r,
      calculate_error_rate ascii_digit example_spellcheck word_runs 8
        example_text = inr r
      /\ tok_count r = 3 /\ all r = 1 /\ long r = 0
      /\ page_errors r = [mk_page 0 0 2 (text "PageV01P001")].
Proof.
  intros (r & Hr & _ & _ & _ & Hpages).
  rewrite example_run_ascii in Hr.
  injection Hr as <-. simpl in Hpages. discriminate Hpages.
Qed.

(** C3: a piece of text that starts with [Page] without being a page marker
    is taken for one.  In [Page one PageV01P001two] the first piece is no
    marker and holds the tokens [Page] and [one]; neither is counted, the
    book has the one token [two], and the piece is entered in the list as a
    page of its own. *)
Theorem page_prefixed_piece_not_read :
  let t := text "Page one PageV01P001two" in
  re_split ascii_digit t
  = [text "Page one "; text "PageV01P001"; text "two"]
  /\ is_marker ascii_digit (text "Page one ") = false
  /\ word_runs (text "Page one ") = [text "Page"; text "one"]
  /\ calculate_error_rate ascii_digit (fun _ => false) word_runs 8 t
     = inr (mk_book 1 0 1
              [mk_page 0 0 0 (text "Page one ");
               mk_page 0 0 0 (text "PageV01P001")]
              1 0).
Proof. vm_compute. repeat split; reflexivity. Qed.

(** C9: in [Pages lost PageV02P010kept PageV02P011] two tokens precede the
    first page marker, yet the entry of that marker has no token, and the
    first entry of the list is labelled with the text before the marker. *)
Theorem page_prefixed_piece_not_in_entry :
  let t := text "Pages lost PageV02P010kept PageV02P011" in
  re_split ascii_digit t
  = [text "Pages lost "; text "PageV02P010"; text "kept ";
     text "PageV02P011"; []]
  /\ word_runs (text "Pages lost ") = [text "Pages"; text "lost"]
  /\ calculate_error_rate ascii_digit (fun _ => true) word_runs 8 t
     = inr (mk_book 0 0 1
              [mk_page 0 0 0 (text "Pages lost ");
               mk_page 0 0 0 (text "PageV02P010");
               mk_page 0 0 1 (text "PageV02P011")]
              0 0).
Proof. vm_compute. repeat split; reflexivity. Qed.

(** C4 as stated fails: a page marker is a run of word characters, so the
    text [PageV01P001] has a match of the token pattern, and the call fails
    on it all the same. *)
Lemma marker_only_text_fails :
  ~ (forall t,
        word_runs t <> [] ->
        calculate_error_rate ascii_digit example_spellcheck word_runs 8 t
        <> inl ZeroDivisionError).
Proof.
  intros H. apply (H (text "PageV01P001")).
  - vm_compute. discriminate.
  - vm_compute. reflexivity.
Qed.

(** ** The cache and writer of one book *)

Lemma dict_of_book_page_errors r :
  dict_of_book r !! key_page_errors
  = Some (VList (List.map value_of_page (page_errors r))).
Proof.
  unfold dict_of_book.
  rewrite lookup_insert_ne by discriminate.
  rewrite lookup_insert_ne by discriminate.
  apply lookup_insert_eq.
Qed.

Lemma del_page_errors_None (v_uri : str) (error_data error_data' : gmap str value) :
  del_page_errors v_uri error_data = (error_data', None) ->
  exists d,
    error_data !! v_uri = Some (VDict d)
    /\ is_Some (d !! key_page_errors)
    /\ error_data' = <[v_uri := VDict (delete key_page_errors d)]> error_data.
Proof.
  unfold del_page_errors.
  destruct (error_data !! v_uri) as [v|]; [|discriminate].
  destruct v as [| | | | | |d]; try discriminate.
  destruct (d !! key_page_errors) as [x|] eqn:Hx; [|discriminate].
  intros [= <-]. exists d. split; [reflexivity|].
  split; [exists x; exact Hx|reflexivity].
Qed.

Section CollectFacts.

Variable isdigit : N -> bool.
Variable check_with_pyEnchant : str -> bool.
Variable ar_tok : str -> list str.
Variable basename : str -> str.
Variable path_join : str -> str -> str.
Variable json_dumps : value -> str.
Variable json_loads : str -> option value.
Variable writable : str -> bool.

Local Abbreviation out_path := (out_path basename path_join).
Local Abbreviation load_or_compute :=
  (load_or_compute isdigit check_with_pyEnchant ar_tok basename path_join
     json_dumps json_loads writable).
Local Abbreviation collect_spellcheck_error_data_in_file :=
  (collect_spellcheck_error_data_in_file isdigit check_with_pyEnchant ar_tok
     basename path_join json_dumps json_loads writable).

(** When the conditional ends without an exception it has put one entry
    into the mapping, under the base name of the path. *)
Lemma load_or_compute_None (fp : str)
    (spellcheck_func : str -> bool) (outfolder : str)
    (error_data : gmap str value) (overwrite : bool) (files : gmap str str)
    (error_data' : gmap str value) (files' : gmap str str) :
  load_or_compute fp spellcheck_func outfolder error_data overwrite files
  = (error_data', files', None) ->
  exists v, error_data' = <[basename fp := v]> error_data.
Proof.
  unfold_def load_or_compute.
  destruct (overwrite
            || negb (bool_decide (is_Some (files !! out_path outfolder fp)))).
  - destruct (files !! fp) as [t|]; [|discriminate].
    destruct (calculate_error_rate _ _ _ _ _) as [e|r]; [discriminate|].
    destruct (writable _); [|discriminate].
    intros [= <- <-]. eexists; reflexivity.
  - destruct (files !! out_path outfolder fp) as [content|]; [|discriminate].
    destruct (json_loads content) as [v|]; [|discriminate].
    intros [= <- <-]. eexists; reflexivity.
Qed.

(** On the path that computes, the entry is the record of the book with
    its list of pages, and the same record is what the file of the book
    holds. *)
Lemma load_or_compute_computed (fp : str)
    (spellcheck_func : str -> bool) (outfolder : str)
    (error_data : gmap str value) (overwrite : bool) (files : gmap str str)
    (error_data' : gmap str value) (files' : gmap str str) :
  overwrite = true \/ files !! out_path outfolder fp = None ->
  load_or_compute fp spellcheck_func outfolder error_data overwrite files
  = (error_data', files', None) ->
  exists r,
    error_data' = <[basename fp := VDict (dict_of_book r)]> error_data
    /\ files'
       = <[out_path outfolder fp := json_dumps (VDict (dict_of_book r))]>
           files.
Proof.
  intros Hpath. unfold_def load_or_compute.
  replace (overwrite
           || negb (bool_decide (is_Some (files !! out_path outfolder fp))))
    with true.
  - destruct (files !! fp) as [t|]; [|discriminate].
    destruct (calculate_error_rate _ _ _ _ _) as [e|r]; [discriminate|].
    destruct (writable _); [|discriminate].
    intros [= <- <-]. exists r. split; reflexivity.
  - destruct Hpath as [-> | ->]; [reflexivity|].
    rewrite bool_decide_eq_false_2; [destruct overwrite; reflexivity|].
    intros [x Hx]. discriminate.
Qed.

(** C5: when the call returns, the entry of the book in the mapping is the
    entry the conditional placed there without its key [page_errors] and
    with every other key as it was, the other entries of the mapping are
    untouched, and on the path that computes the file of the book holds
    the whole entry, list of pages included. *)
Theorem page_errors_only_in_book_file (fp : str)
    (spellcheck_func : str -> bool) (outfolder : str)
    (error_data : gmap str value) (overwrite : bool) (files : gmap str str)
    (error_data' : gmap str value) (files' : gmap str str) :
  collect_spellcheck_error_data_in_file fp spellcheck_func outfolder
    error_data overwrite files = (error_data', files', None) ->
  exists placed entry : gmap str value,
    fst (fst (load_or_compute fp spellcheck_func outfolder error_data
                overwrite files)) !! basename fp = Some (VDict placed)
    /\ error_data' !! basename fp = Some (VDict entry)
    /\ entry !! key_page_errors = None
    /\ (forall k, k <> key_page_errors -> entry !! k = placed !! k)
    /\ (forall u, u <> basename fp -> error_data' !! u = error_data !! u)
    /\ (overwrite = true \/ files !! out_path outfolder fp = None ->
        files' !! out_path outfolder fp = Some (json_dumps (VDict placed))
        /\ exists pages, placed !! key_page_errors = Some (VList pages)).
Proof.
  unfold_def collect_spellcheck_error_data_in_file.
  destruct (load_or_compute fp spellcheck_func outfolder error_data
              overwrite files) as [[ed1 fs1] [e|]] eqn:Hload;
    [discriminate|].
  destruct (del_page_errors (basename fp) ed1) as [ed2 raised] eqn:Hdel.
  intros [= -> -> ->].
  destruct (del_page_errors_None _ _ _ Hdel) as (d & Hd & _ & ->).
  destruct (load_or_compute_None _ _ _ _ _ _ _ _ Hload) as [v ->].
  exists d, (delete key_page_errors d). simpl.
  split; [exact Hd|].
  split; [apply lookup_insert_eq|].
  split; [apply lookup_delete_eq|].
  split; [intros k Hk; apply lookup_delete_ne; congruence|].
  split.
  - intros u Hu. rewrite !lookup_insert_ne by congruence. reflexivity.
  - intros Hpath.
    destruct (load_or_compute_computed _ _ _ _ _ _ _ _ Hpath Hload)
      as (r & Hed & ->).
    rewrite lookup_insert_eq in Hd.
    assert (Hv : v = VDict (dict_of_book r)).
    { apply (f_equal (fun m => m !! basename fp)) in Hed.
      rewrite !lookup_insert_eq in Hed. congruence. }
    assert (Hplaced : d = dict_of_book r) by congruence.
    subst d.
    split; [apply lookup_insert_eq|].
    eexists. apply dict_of_book_page_errors.
Qed.

(** C10: with [overwrite] off and a file of the book that holds a JSON
    object, the key [page_errors] is deleted from the object loaded when it
    is there; when it is not, the call raises [KeyError] and leaves the
    object in the mapping, which therefore differs from the mapping before
    the call unless that held the very same object for the book. *)
Theorem cached_record_without_pages (fp : str)
    (spellcheck_func : str -> bool) (outfolder : str)
    (error_data : gmap str value) (files : gmap str str) (content : str)
    (d : gmap str value) :
  files !! out_path outfolder fp = Some content ->
  json_loads content = Some (VDict d) ->
  collect_spellcheck_error_data_in_file fp spellcheck_func outfolder
    error_data false files
  = match d !! key_page_errors with
    | Some _ =>
        (<[basename fp := VDict (delete key_page_errors d)]> error_data,
         files, None)
    | None => (<[basename fp := VDict d]> error_data, files, Some KeyError)
    end
  /\ (d !! key_page_errors = None ->
      error_data !! basename fp <> Some (VDict d) ->
      <[basename fp := VDict d]> error_data <> error_data).
Proof.
  intros Hfile Hjson. split.
  - unfold_def collect_spellcheck_error_data_in_file;
      unfold_def load_or_compute.
    rewrite Hfile. rewrite bool_decide_eq_true_2 by (eexists; reflexivity).
    simpl. rewrite Hjson.
    unfold del_page_errors. rewrite lookup_insert_eq.
    destruct (d !! key_page_errors); [|reflexivity].
    rewrite insert_insert_eq. reflexivity.
  - intros _ Hold Heq. apply Hold.
    rewrite <- Heq. apply lookup_insert_eq.
Qed.

End CollectFacts.

Lemma page_errors_only_in_book_file_witness :
  demo_computed = (fst (fst demo_computed), snd (fst demo_computed), None)
  /\ exists entry : gmap str value,
      fst (fst demo_computed) !! text "0255Jahiz.Hayawan-ara1"
      = Some (VDict entry)
      /\ entry !! key_page_errors = None
      /\ exists placed pages,
          snd (fst demo_computed) !! demo_outfp
          = Some (demo_dumps (VDict placed))
          /\ placed !! key_page_errors = Some (VList pages).
Proof.
  assert (Hrun : demo_computed
                 = (fst (fst demo_computed), snd (fst demo_computed), None))
    by (vm_compute; reflexivity).
  split; [exact Hrun|].
  destruct (page_errors_only_in_book_file ascii_digit example_spellcheck
              word_runs posix_basename posix_join demo_dumps
              (demo_loads ∅) (fun _ => true)
              demo_fp example_spellcheck (text "error_data") ∅ false
              {[ demo_fp := text "#META#Header#End" ++ example_text ]}
              _ _ Hrun)
    as (placed & entry & _ & Hentry & Hnone & _ & _ & Hfile).
  exists entry. split; [exact Hentry|]. split; [exact Hnone|].
  destruct Hfile as [Hfile [pages Hpages]].
  - right. vm_compute. reflexivity.
  - exists placed, pages. split; [exact Hfile|exact Hpages].
Defined.

Lemma cached_record_without_pages_witness :
  let files : gmap str str := {[ demo_outfp := text "{ }" ]} in
  files !! demo_outfp = Some (text "{ }")
  /\ demo_loads ∅ (text "{ }") = Some (VDict ∅)
  /\ collect_spellcheck_error_data_in_file ascii_digit example_spellcheck
       word_runs posix_basename posix_join demo_dumps (demo_loads ∅)
       (fun _ => true)
       demo_fp example_spellcheck (text "error_data") ∅ false files
     = (<[text "0255Jahiz.Hayawan-ara1" := VDict ∅]> ∅, files, Some KeyError).
Proof.
  intros files.
  assert (Hfile : files !! demo_outfp = Some (text "{ }"))
    by (vm_compute; reflexivity).
  split; [exact Hfile|]. split; [reflexivity|].
  exact (proj1 (cached_record_without_pages ascii_digit example_spellcheck
                  word_runs posix_basename posix_join demo_dumps
                  (demo_loads ∅) (fun _ => true)
                  demo_fp example_spellcheck (text "error_data") ∅ files
                  (text "{ }") ∅ Hfile eq_refl)).
Defined.

(** * Further properties *)

(** ** The pieces of [re.split] *)

Section SplitPieces.

Variable isdigit : N -> bool.

Lemma match_digits_Some s :
  is_Some (match_digits isdigit s)
  <-> exists c s', s = c :: s' /\ isdigit c = true.
Proof.
  unfold match_digits. destruct s as [|c s]; simpl.
  - split; [intros [x Hx]; discriminate|intros (c & s' & H & _); discriminate].
  - destruct (isdigit c) eqn:Hc.
    + destruct (span isdigit s) as [run rest].
      split; [intros _; exists c, s; split; [reflexivity|exact Hc]|].
      intros _. eexists; reflexivity.
    + split; [intros [x Hx]; discriminate|].
      intros (c' & s' & [= -> ->] & Hc'). congruence.
Qed.

Lemma match_digits_more s y :
  is_Some (match_digits isdigit s) -> is_Some (match_digits isdigit (s ++ y)).
Proof.
  rewrite !match_digits_Some. intros (c & s' & -> & Hc).
  exists c, (s' ++ y). split; [reflexivity|exact Hc].
Qed.

(** A match stays a match when the text goes on behind it. *)
Lemma match_digits_P_digits_more s y :
  is_Some (match_digits_P_digits isdigit s) ->
  is_Some (match_digits_P_digits isdigit (s ++ y)).
Proof.
  induction s as [|c s IH]; simpl; [intros [x Hx]; discriminate|].
  assert (Hat : is_Some (if (c =? chr_P)%N
                         then match match_digits isdigit s with
                              | Some (d2, rest) => Some (c :: d2, rest)
                              | None => None
                              end
                         else None) ->
                is_Some (if (c =? chr_P)%N
                         then match match_digits isdigit (s ++ y) with
                              | Some (d2, rest) => Some (c :: d2, rest)
                              | None => None
                              end
                         else None)).
  { destruct (c =? chr_P)%N; [|intros [x Hx]; discriminate].
    destruct (match_digits isdigit s) as [[d2 rest]|] eqn:Hd;
      [|intros [x Hx]; discriminate].
    intros _.
    destruct (match_digits_more s y) as [[d2' rest'] ->];
      [rewrite Hd; eexists; reflexivity|].
    eexists; reflexivity. }
  destruct (isdigit c); [|exact Hat].
  destruct (match_digits_P_digits isdigit s) as [[m rest]|].
  - intros _. destruct IH as [[m' rest'] ->]; [eexists; reflexivity|].
    eexists; reflexivity.
  - intros H. apply Hat in H.
    destruct (match_digits_P_digits isdigit (s ++ y)) as [[m' rest']|];
      [eexists; reflexivity|exact H].
Qed.

Lemma strip_prefix_more prefix s rest y :
  strip_prefix prefix s = Some rest ->
  strip_prefix prefix (s ++ y) = Some (rest ++ y).
Proof.
  revert s.
  induction prefix as [|c prefix IH]; intros s; simpl.
  - intros [= ->]. reflexivity.
  - destruct s as [|d s]; [discriminate|]. simpl.
    destruct (c =? d)%N; [apply IH|discriminate].
Qed.

Lemma match_marker_more s y :
  is_Some (match_marker isdigit s) -> is_Some (match_marker isdigit (s ++ y)).
Proof.
  unfold match_marker.
  destruct (strip_prefix (text "PageV") s) as [[|c s']|] eqn:Hp;
    try (intros [x Hx]; discriminate).
  rewrite (strip_prefix_more _ _ _ y Hp). simpl.
  destruct (isdigit c); [|intros [x Hx]; discriminate].
  destruct (match_digits_P_digits isdigit s') as [[m rest]|] eqn:Hm;
    [|intros [x Hx]; discriminate].
  intros _.
  destruct (match_digits_P_digits_more s' y) as [[m' rest'] ->];
    [rewrite Hm; eexists; reflexivity|].
  eexists; reflexivity.
Qed.

Lemma span_run f s : span f (fst (span f s)) = (fst (span f s), []).
Proof.
  induction s as [|c s IH]; simpl; [reflexivity|].
  destruct (f c) eqn:Hc; [|reflexivity].
  destruct (span f s) as [run rest]; simpl in *.
  rewrite Hc, IH. reflexivity.
Qed.

Lemma match_digits_full s run rest :
  match_digits isdigit s = Some (run, rest) ->
  match_digits isdigit run = Some (run, []).
Proof.
  unfold match_digits. pose proof (span_run isdigit s) as Hrun.
  destruct (span isdigit s) as [[|c run'] rest']; [discriminate|].
  intros [= <- <-]. cbn [fst] in Hrun. rewrite Hrun. reflexivity.
Qed.

(** What the pattern matched is, taken alone, matched as a whole. *)
Lemma match_digits_P_digits_full s m rest :
  match_digits_P_digits isdigit s = Some (m, rest) ->
  match_digits_P_digits isdigit m = Some (m, []).
Proof.
  revert m rest.
  induction s as [|c s IH]; intros m rest; simpl; [discriminate|].
  assert (Hat : match_digits_P_digits isdigit s = None ->
                (if (c =? chr_P)%N
                 then match match_digits isdigit s with
                      | Some (d2, rest0) => Some (c :: d2, rest0)
                      | None => None
                      end
                 else None) = Some (m, rest) ->
                match_digits_P_digits isdigit m = Some (m, [])).
  { intros Hnone.
    destruct (c =? chr_P)%N eqn:HP; [|discriminate].
    destruct (match_digits isdigit s) as [[d2 rest0]|] eqn:Hd;
      [|discriminate].
    intros [= <- <-]. simpl. rewrite HP.
    rewrite (match_digits_full _ _ _ Hd).
    assert (Hd2 : match_digits_P_digits isdigit d2 = None).
    { destruct (match_digits_P_digits isdigit d2) as [x|] eqn:Hx;
        [|reflexivity].
      destruct (match_digits_P_digits_more d2 rest0) as [x' Hx'];
        [rewrite Hx; eexists; reflexivity|].
      rewrite <- (match_digits_app _ _ _ _ Hd), Hnone in Hx'.
      discriminate. }
    rewrite Hd2. destruct (isdigit c); reflexivity. }
  destruct (isdigit c) eqn:Hc.
  - destruct (match_digits_P_digits isdigit s) as [[m' rest']|] eqn:Hs.
    + intros [= <- <-]. simpl. rewrite Hc, (IH _ _ eq_refl). reflexivity.
    + apply Hat. reflexivity.
  - destruct (match_digits_P_digits isdigit s) as [[m' rest']|] eqn:Hs.
    + intros H.
      destruct (c =? chr_P)%N eqn:HP; [|discriminate].
      destruct (match_digits isdigit s) as [[d2 rest0]|] eqn:Hd;
        [|discriminate].
      injection H as <- <-. simpl. rewrite HP, Hc.
      rewrite (match_digits_full _ _ _ Hd). reflexivity.
    + apply Hat. reflexivity.
Qed.

Lemma strip_prefix_self prefix s :
  strip_prefix prefix (prefix ++ s) = Some s.
Proof.
  induction prefix as [|c prefix IH]; simpl; [reflexivity|].
  rewrite N.eqb_refl. exact IH.
Qed.

Lemma match_marker_full s m rest :
  match_marker isdigit s = Some (m, rest) -> is_marker isdigit m = true.
Proof.
  intros H.
  assert (Hm : exists c m',
             m = text "PageV" ++ c :: m' /\ isdigit c = true
             /\ match_digits_P_digits isdigit m' = Some (m', [])).
  { unfold match_marker in H.
    destruct (strip_prefix (text "PageV") s) as [[|c s']|];
      try discriminate.
    destruct (isdigit c) eqn:Hc; [|discriminate].
    destruct (match_digits_P_digits isdigit s') as [[m' rest']|] eqn:Hm;
      [|discriminate].
    exists c, m'. split; [congruence|].
    split; [exact Hc|exact (match_digits_P_digits_full _ _ _ Hm)]. }
  destruct Hm as (c & m' & -> & Hc & Hm).
  unfold is_marker, match_marker.
  rewrite strip_prefix_self, Hc, Hm. reflexivity.
Qed.

End SplitPieces.

Section SplitShape.

Variable isdigit : N -> bool.

Lemma re_split_from_back fuel cur t :
  (List.length t <= fuel)%nat ->
  concat (re_split_from isdigit fuel cur t) = List.rev cur ++ t.
Proof.
  revert cur t.
  induction fuel as [|fuel IH]; intros cur t Hlen; simpl.
  - rewrite List.app_nil_r. reflexivity.
  - destruct (match_marker isdigit t) as [[m rest]|] eqn:Hm.
    + destruct (match_marker_app _ _ _ _ Hm) as [Ht [m' Hm']]. subst t m.
      rewrite !List.length_app in Hlen. simpl in Hlen.
      cbn [concat]. rewrite IH by lia. reflexivity.
    + destruct t as [|c t']; simpl.
      * rewrite List.app_nil_r. reflexivity.
      * simpl in Hlen. rewrite IH by lia.
        simpl. rewrite <- List.app_assoc. reflexivity.
Qed.

(** X1: the pieces [re.split] returns, markers included, are the text cut
    up: put together in their order they give the text back. *)
Theorem re_split_pieces_back t : concat (re_split isdigit t) = t.
Proof. apply (re_split_from_back (List.length t) [] t). lia. Qed.

Lemma re_split_from_alternates fuel cur t :
  List.length (texts (re_split_from isdigit fuel cur t))
  = S (List.length (markers (re_split_from isdigit fuel cur t)))
  /\ Forall (fun m => is_marker isdigit m = true)
       (markers (re_split_from isdigit fuel cur t)).
Proof.
  revert cur t.
  induction fuel as [|fuel IH]; intros cur t; simpl.
  - split; [reflexivity|constructor].
  - destruct (match_marker isdigit t) as [[m rest]|] eqn:Hm.
    + destruct (IH [] rest) as [Hlen Hall]. cbn [texts markers List.length].
      split; [rewrite Hlen; reflexivity|].
      constructor; [exact (match_marker_full _ _ _ _ Hm)|exact Hall].
    + destruct t as [|c t']; [split; [reflexivity|constructor]|apply IH].
Qed.

(** X2: the list [re.split] returns starts and ends with a piece of text and
    alternates in between: it has one piece of text more than it has
    markers, and each element at an odd position is, as a whole, a match of
    [PageV\d+P\d+]. *)
Theorem re_split_alternates t :
  List.length (texts (re_split isdigit t))
  = S (List.length (markers (re_split isdigit t)))
  /\ Forall (fun m => is_marker isdigit m = true)
       (markers (re_split isdigit t)).
Proof. apply re_split_from_alternates. Qed.


Lemma re_split_from_marker_free fuel cur t :
  (List.length t <= fuel)%nat ->
  (forall a b, List.rev cur = a ++ b -> b <> [] ->
               match_marker isdigit (b ++ t) = None) ->
  Forall (marker_free isdigit) (texts (re_split_from isdigit fuel cur t)).
Proof.
  revert cur t.
  assert (Hpiece : forall cur t,
             match_marker isdigit t = None ->
             (forall a b, List.rev cur = a ++ b -> b <> [] ->
                          match_marker isdigit (b ++ t) = None) ->
             marker_free isdigit (List.rev cur)).
  { intros cur t Ht Hcur a b Hab.
    destruct b as [|c b]; [reflexivity|].
    destruct (match_marker isdigit (c :: b)) as [x|] eqn:Hx; [|reflexivity].
    destruct (match_marker_more isdigit (c :: b) t) as [y Hy];
      [rewrite Hx; eexists; reflexivity|].
    rewrite (Hcur a (c :: b) Hab) in Hy by discriminate. discriminate. }
  assert (Hpiece' : forall cur t m rest,
             match_marker isdigit t = Some (m, rest) ->
             (forall a b, List.rev cur = a ++ b -> b <> [] ->
                          match_marker isdigit (b ++ t) = None) ->
             marker_free isdigit (List.rev cur)).
  { intros cur t m rest Ht Hcur a b Hab.
    destruct b as [|c b]; [reflexivity|].
    destruct (match_marker isdigit (c :: b)) as [x|] eqn:Hx; [|reflexivity].
    destruct (match_marker_more isdigit (c :: b) t) as [y Hy];
      [rewrite Hx; eexists; reflexivity|].
    rewrite (Hcur a (c :: b) Hab) in Hy by discriminate. discriminate. }
  induction fuel as [|fuel IH]; intros cur t Hlen Hcur; simpl.
  - destruct t; [|simpl in Hlen; lia].
    rewrite List.app_nil_r. constructor; [|constructor].
    apply (Hpiece cur []); [reflexivity|exact Hcur].
  - destruct (match_marker isdigit t) as [[m rest]|] eqn:Hm.
    + cbn [texts]. constructor; [exact (Hpiece' _ _ _ _ Hm Hcur)|].
      destruct (match_marker_app _ _ _ _ Hm) as [Ht [m' Hm']]. subst t m.
      rewrite !List.length_app in Hlen. simpl in Hlen.
      apply IH; [lia|].
      intros a b Hab Hb. simpl in Hab. symmetry in Hab.
      apply List.app_eq_nil in Hab as [_ ->]. contradiction.
    + destruct t as [|c t'].
      * constructor; [|constructor]. apply (Hpiece cur []); assumption.
      * simpl in Hlen. apply IH; [lia|].
        intros a b Hab Hb. simpl in Hab.
        destruct (List.exists_last Hb) as (b' & d & ->).
        rewrite List.app_assoc in Hab.
        apply List.app_inj_tail in Hab as [Hab ->].
        rewrite <- List.app_assoc. simpl.
        destruct b' as [|e b']; [exact Hm|].
        apply (Hcur a); [exact Hab|discriminate].
Qed.

(** X3: no match of the page-marker pattern is left inside the pieces of
    text [re.split] returns: none starts anywhere in one of them. *)
Theorem re_split_texts_marker_free t :
  Forall (marker_free isdigit) (texts (re_split isdigit t)).
Proof.
  apply re_split_from_marker_free; [reflexivity|].
  intros a b Hab Hb. simpl in Hab. symmetry in Hab.
  apply List.app_eq_nil in Hab as [_ ->]. contradiction.
Qed.



End SplitShape.


(** ** The counts of a book *)

Section BookCounts.

Variable isdigit : N -> bool.
Variable spellcheck_func : str -> bool.
Variable token_regex : str -> list str.

Local Abbreviation rejected := (fun tok : str => negb (spellcheck_func tok)).

(** X7: the record of a book counts the matches of the token pattern in the
    pieces of text between the page markers (those that are not empty and do
    not start with [Page]): [tok_count] is their number and [all] the number
    of those the spell checker rejects. *)
Theorem book_counts_of_text long_min t r :
  calculate_error_rate isdigit spellcheck_func token_regex long_min t = inr r ->
  let toks := tokens_of_segments token_regex (texts (re_split isdigit t)) in
  tok_count r = Z.of_nat (List.length toks)
  /\ all r = count_if rejected toks.
Proof.
  intros Hr. cbn zeta.
  destruct (calculate_error_rate_inr _ _ _ _ _ _ Hr)
    as (_ & -> & _ & -> & _).
  destruct (count_segments_fst spellcheck_func token_regex long_min
              (re_split isdigit t)) as (-> & _ & ->).
  rewrite tokens_of_segments_texts by apply re_split_markers.
  split; reflexivity.
Qed.

Lemma count_if_nonneg (f : str -> bool) toks : 0 <= count_if f toks.
Proof. unfold count_if. lia. Qed.

Lemma count_if_le (f g : str -> bool) toks :
  (forall tok, f tok = true -> g tok = true) ->
  count_if f toks <= count_if g toks.
Proof.
  intros Hfg. induction toks as [|tok toks IH].
  - unfold count_if; simpl. lia.
  - rewrite !count_if_cons.
    destruct (f tok) eqn:Hf; [rewrite (Hfg _ Hf); lia|].
    destruct (g tok); lia.
Qed.

Lemma count_if_zero (f : str -> bool) toks :
  count_if f toks = 0 <-> Forall (fun tok => f tok = false) toks.
Proof.
  induction toks as [|tok toks IH].
  - split; [constructor|reflexivity].
  - rewrite count_if_cons. pose proof (count_if_nonneg f toks) as Hn.
    split.
    + intros H. destruct (f tok) eqn:Hf; [lia|].
      constructor; [exact Hf|apply IH; lia].
    + intros H. apply Forall_cons in H as [Hf H].
      rewrite Hf. apply IH in H. lia.
Qed.

(** X8: the threshold [long] bears on the long errors alone.  With a higher
    threshold the call returns a record as well, with the same tokens, the
    same errors and the same error rate, and with no more long errors than
    before. *)
Theorem higher_threshold_fewer_long long_min long_min' t r :
  long_min <= long_min' ->
  calculate_error_rate isdigit spellcheck_func token_regex long_min t = inr r ->
  exists r',
    calculate_error_rate isdigit spellcheck_func token_regex long_min' t
    = inr r'
    /\ tok_count r' = tok_count r /\ all r' = all r
    /\ error_rate r' = error_rate r
    /\ long r' <= long r.
Proof.
  intros Hle Hr.
  destruct (calculate_error_rate_inr _ _ _ _ _ _ Hr)
    as (Hn & Ha & Hl & Ht & _ & Hrate & _).
  destruct (count_segments_fst spellcheck_func token_regex long_min
              (re_split isdigit t)) as (Ha1 & Hl1 & Ht1).
  destruct (count_segments_fst spellcheck_func token_regex long_min'
              (re_split isdigit t)) as (Ha2 & Hl2 & Ht2).
  destruct (calculate_error_rate_returns isdigit spellcheck_func token_regex
              long_min' t) as [r' Hr']; [congruence|].
  exists r'. split; [exact Hr'|].
  destruct (calculate_error_rate_inr _ _ _ _ _ _ Hr')
    as (_ & Ha' & Hl' & Ht' & _ & Hrate' & _).
  assert (Htok : tok_count r' = tok_count r) by congruence.
  assert (Hall : all r' = all r) by congruence.
  split; [exact Htok|]. split; [exact Hall|].
  split; [rewrite Hrate', Hrate, Htok, Hall; reflexivity|].
  rewrite Hl', Hl, Hl1, Hl2. apply count_if_le.
  intros tok. unfold long_error.
  destruct (spellcheck_func tok); simpl; [discriminate|].
  intros H. apply Z.gtb_lt in H. apply Z.gtb_lt. lia.
Qed.

(** X9: the record of a book has no error exactly when the spell checker
    accepts every token read. *)
Theorem no_error_iff_all_accepted long_min t r :
  calculate_error_rate isdigit spellcheck_func token_regex long_min t = inr r ->
  all r = 0
  <-> Forall (fun tok => spellcheck_func tok = true)
        (tokens_of_segments token_regex (texts (re_split isdigit t))).
Proof.
  intros Hr.
  destruct (calculate_error_rate_inr _ _ _ _ _ _ Hr) as (_ & -> & _).
  destruct (count_segments_fst spellcheck_func token_regex long_min
              (re_split isdigit t)) as (-> & _).
  rewrite tokens_of_segments_texts by apply re_split_markers.
  rewrite count_if_zero.
  split; intros Hall; (eapply Forall_impl; [exact Hall|]); intros tok H.
  - simpl in H. destruct (spellcheck_func tok); [reflexivity|discriminate H].
  - simpl in H. simpl. rewrite H. reflexivity.
Qed.

Local Abbreviation count_segment :=
  (count_segment spellcheck_func token_regex).

(** The pages of the list are those closed by the pieces that start with
    [Page], in their order and under those pieces as numbers. *)
Lemma fold_count_segment_page_nos long_min segs :
  forall st,
    List.map pg_page_no
      (bk_page_errors (fst (fold_left (count_segment long_min) segs st)))
    = List.map pg_page_no (bk_page_errors (fst st))
      ++ List.filter (fun p => startswith p (text "Page")) segs.
Proof.
  induction segs as [|p segs IH]; intros [errors page].
  - simpl. rewrite List.app_nil_r. reflexivity.
  - cbn [fold_left List.filter]. rewrite IH.
    destruct (startswith p (text "Page")) eqn:Hp.
    + rewrite (count_segment_marker _ _ _ _ _ _ Hp). simpl.
      rewrite List.map_app, <- List.app_assoc. reflexivity.
    + rewrite (count_segment_text _ _ _ _ _ _ Hp), count_tokens_fst.
      reflexivity.
Qed.

(** X10: the numbers of the pages in the list are the pieces of the text
    that start with [Page], in their order: one page for every such piece,
    and so no page under the empty number the loop starts from. *)
Theorem page_numbers_of_list long_min t r :
  calculate_error_rate isdigit spellcheck_func token_regex long_min t = inr r ->
  List.map pg_page_no (page_errors r)
  = List.filter (fun p => startswith p (text "Page")) (re_split isdigit t).
Proof.
  intros Hr.
  destruct (calculate_error_rate_inr _ _ _ _ _ _ Hr)
    as (_ & _ & _ & _ & -> & _).
  unfold count_segments. rewrite fold_count_segment_page_nos. reflexivity.
Qed.

(** The tokens of the page being read when the loop ends are those of the
    last piece. *)
Lemma fold_count_segment_last long_min segs :
  forall errors,
    Forall (fun m => startswith m (text "Page") = true) (markers segs) ->
    segs <> [] ->
    pg_tok_count
      (snd (fold_left (count_segment long_min) segs (errors, new_page)))
    = Z.of_nat
        (List.length (tokens_of_segment token_regex (List.last segs []))).
Proof.
  assert (Hone : forall errors x,
             pg_tok_count (snd (count_segment long_min (errors, new_page) x))
             = Z.of_nat (List.length (tokens_of_segment token_regex x))).
  { intros errors x. destruct (startswith x (text "Page")) eqn:Hx.
    - rewrite (count_segment_marker _ _ _ _ _ _ Hx).
      rewrite (tokens_of_segment_marker _ _ Hx). reflexivity.
    - rewrite (count_segment_text _ _ _ _ _ _ Hx), count_tokens_snd.
      simpl. lia. }
  induction segs as [| x | x m segs IH] using pieces_ind;
    intros errors Hm Hne.
  - contradiction.
  - cbn [fold_left List.last]. apply Hone.
  - cbn [markers] in Hm. apply Forall_cons in Hm as [Hm Hms].
    cbn [fold_left].
    destruct (count_segment long_min (errors, new_page) x)
      as [errors1 page1].
    rewrite (count_segment_marker _ _ _ _ _ _ Hm).
    destruct segs as [|y segs].
    + simpl. rewrite (tokens_of_segment_marker _ _ Hm). reflexivity.
    + rewrite IH by (assumption || discriminate). reflexivity.
Qed.

(** X11: the tokens of a book that are in no page of the list are those of
    the text behind the last page marker: the token count of the book is the
    sum over the pages plus the tokens read in the last piece. *)
Theorem tokens_behind_last_marker long_min t r :
  calculate_error_rate isdigit spellcheck_func token_regex long_min t = inr r ->
  tok_count r
  = sum_tok_count (page_errors r)
    + Z.of_nat
        (List.length
           (tokens_of_segment token_regex
              (List.last (re_split isdigit t) []))).
Proof.
  intros Hr.
  destruct (calculate_error_rate_inr _ _ _ _ _ _ Hr)
    as (_ & _ & _ & -> & -> & _).
  destruct (count_segments_ok spellcheck_func token_regex long_min
              (re_split isdigit t)) as (_ & _ & _ & _ & ->).
  f_equal. unfold count_segments.
  apply fold_count_segment_last; [apply re_split_markers|].
  intros Hnil. apply (f_equal texts) in Hnil.
  pose proof (re_split_from_alternates isdigit (List.length t) [] t)
    as [Hlen _].
  fold (re_split isdigit t) in Hlen.
  rewrite Hnil in Hlen. discriminate.
Qed.

End BookCounts.

(** ** The metadata header *)

Section SplitLast.

Variable sep : str.
Hypothesis sep_not_empty : sep <> [].

Lemma strip_prefix_shorter s rest :
  strip_prefix sep s = Some rest -> (List.length rest < List.length s)%nat.
Proof.
  intros H. rewrite (strip_prefix_app _ _ _ H), List.length_app.
  destruct sep; [contradiction|simpl; lia].
Qed.

Lemma split_last_from_free fuel piece t :
  (List.length t <= fuel)%nat ->
  (forall a b, piece = a ++ sep ++ b -> exists a', t = a' ++ sep ++ b) ->
  ~ occurs sep (split_last_from fuel sep piece t).
Proof.
  assert (Hend : forall pc,
             (forall a b, pc = a ++ sep ++ b ->
                          exists a', @nil N = a' ++ sep ++ b) ->
             ~ occurs sep pc).
  { intros pc Hinv (a & b & Hab).
    destruct (Hinv a b Hab) as [a' Ha']. symmetry in Ha'.
    apply List.app_eq_nil in Ha' as [_ Ha'].
    apply List.app_eq_nil in Ha' as [Ha' _]. contradiction. }
  revert piece t.
  induction fuel as [|fuel IH]; intros piece t Hlen Hinv; simpl.
  - destruct t; [|simpl in Hlen; lia]. apply Hend, Hinv.
  - destruct t as [|c t']; [apply Hend, Hinv|].
    destruct (strip_prefix sep (c :: t')) as [rest|] eqn:Hp.
    + apply IH.
      * apply strip_prefix_shorter in Hp. simpl in Hp, Hlen. lia.
      * intros a b ->. exists a. reflexivity.
    + apply IH; [simpl in Hlen; lia|].
      intros a b Hab. destruct (Hinv a b Hab) as [a' Ha'].
      destruct a' as [|d a'].
      * simpl in Ha'. rewrite Ha', strip_prefix_self in Hp. discriminate.
      * injection Ha' as _ ->. exists a'. reflexivity.
Qed.

Lemma split_last_from_behind fuel piece t :
  (exists u, piece = u ++ t) ->
  split_last_from fuel sep piece t = piece
  \/ exists pre, piece = pre ++ sep ++ split_last_from fuel sep piece t.
Proof.
  revert piece t.
  induction fuel as [|fuel IH]; intros piece t [u Hu]; simpl;
    [left; reflexivity|].
  destruct t as [|c t']; [left; reflexivity|].
  destruct (strip_prefix sep (c :: t')) as [rest|] eqn:Hp.
  - right. apply strip_prefix_app in Hp. rewrite Hp in Hu.
    destruct (IH rest rest) as [-> | [pre Hpre]]; [exists []; reflexivity| |].
    + exists u. exact Hu.
    + exists (u ++ sep ++ pre).
      rewrite <- !List.app_assoc. rewrite <- Hpre. exact Hu.
  - apply IH. exists (u ++ [c]).
    rewrite <- List.app_assoc. exact Hu.
Qed.

(** X12: [t.split(sep)[-1]] for a separator that is not empty: the text
    returned holds no occurrence of the separator, and it is either the
    whole of [t] or the text behind an occurrence of the separator in [t].
    So the text analysed for a book is what stands behind the last
    [#META#Header#End] and never holds that mark itself. *)
Theorem split_last_behind_separator t :
  ~ occurs sep (split_last sep t)
  /\ (split_last sep t = t \/ exists pre, t = pre ++ sep ++ split_last sep t).
Proof.
  split.
  - apply split_last_from_free; [reflexivity|].
    intros a b ->. exists a. reflexivity.
  - apply split_last_from_behind. exists []. reflexivity.
Qed.

Lemma split_last_from_whole fuel piece t :
  (forall a b, t = a ++ b -> strip_prefix sep b = None) ->
  split_last_from fuel sep piece t = piece.
Proof.
  revert t.
  induction fuel as [|fuel IH]; intros t Hfree; simpl; [reflexivity|].
  destruct t as [|c t']; [reflexivity|].
  rewrite (Hfree [] (c :: t') eq_refl).
  apply IH. intros a b Hab. apply (Hfree (c :: a) b).
  rewrite Hab. reflexivity.
Qed.

(** X13: a text without the separator comes back whole: a file without
    metadata header is analysed from its first character. *)
Theorem split_last_without_separator t :
  ~ occurs sep t -> split_last sep t = t.
Proof.
  intros Hfree. apply split_last_from_whole.
  intros a b Hab.
  destruct (strip_prefix sep b) as [rest|] eqn:Hp; [|reflexivity].
  exfalso. apply Hfree. exists a, rest.
  rewrite Hab, (strip_prefix_app _ _ _ Hp). reflexivity.
Qed.

End SplitLast.

(** ** The outcomes of [collect_spellcheck_error_data_in_file] *)

Section CollectOutcomes.

Variable isdigit : N -> bool.
Variable check_with_pyEnchant : str -> bool.
Variable ar_tok : str -> list str.
Variable basename : str -> str.
Variable path_join : str -> str -> str.
Variable json_dumps : value -> str.
Variable json_loads : str -> option value.
Variable writable : str -> bool.

Local Abbreviation out_path := (out_path basename path_join).
Local Abbreviation collect_spellcheck_error_data_in_file :=
  (collect_spellcheck_error_data_in_file isdigit check_with_pyEnchant ar_tok
     basename path_join json_dumps json_loads writable).

Lemma del_page_errors_book (v_uri : str) (error_data : gmap str value) r :
  del_page_errors v_uri (<[v_uri := VDict (dict_of_book r)]> error_data)
  = (<[v_uri := VDict (delete key_page_errors (dict_of_book r))]> error_data,
     None).
Proof.
  unfold del_page_errors.
  rewrite lookup_insert_eq, dict_of_book_page_errors, insert_insert_eq.
  reflexivity.
Qed.

Lemma computing_path (overwrite : bool) (files : gmap str str) (outfp : str) :
  overwrite = true \/ files !! outfp = None ->
  overwrite || negb (bool_decide (is_Some (files !! outfp))) = true.
Proof.
  intros [-> | ->]; [reflexivity|].
  rewrite bool_decide_eq_false_2; [destruct overwrite; reflexivity|].
  intros [x Hx]. discriminate.
Qed.

(** X14: the path that computes, when nothing fails.  The text analysed is
    what stands behind the last [#META#Header#End] of the file, the spell
    checker, the token pattern and the threshold are the defaults of
    [calculate_error_rate] whatever [spellcheck_func] is passed, the record
    with its pages is what the file of the book gets, and the record without
    its pages is the entry of the book in the mapping. *)
Theorem computed_entry (fp : str) (spellcheck_func : str -> bool)
    (outfolder : str) (error_data : gmap str value) (overwrite : bool)
    (files : gmap str str) (content : str) (r : book_record) :
  overwrite = true \/ files !! out_path outfolder fp = None ->
  files !! fp = Some content ->
  calculate_error_rate isdigit check_with_pyEnchant ar_tok 8
    (split_last (text "#META#Header#End") content) = inr r ->
  writable (out_path outfolder fp) = true ->
  collect_spellcheck_error_data_in_file fp spellcheck_func outfolder
    error_data overwrite files
  = (<[basename fp := VDict (delete key_page_errors (dict_of_book r))]>
       error_data,
     <[out_path outfolder fp := json_dumps (VDict (dict_of_book r))]> files,
     None).
Proof.
  intros Hpath Hfile Hcalc Hw.
  unfold_def collect_spellcheck_error_data_in_file.
  unfold_def load_or_compute.
  rewrite (computing_path _ _ _ Hpath), Hfile, Hcalc, Hw.
  rewrite del_page_errors_book. reflexivity.
Qed.


Lemma collect_frame (fp : str)
    (spellcheck_func : str -> bool) (outfolder : str)
    (error_data : gmap str value) (overwrite : bool) (files : gmap str str)
    (error_data' : gmap str value) (files' : gmap str str)
    (raised : option exn) :
  collect_spellcheck_error_data_in_file fp spellcheck_func outfolder
    error_data overwrite files = (error_data', files', raised) ->
  (forall u, u <> basename fp -> error_data' !! u = error_data !! u)
  /\ (forall p, p <> out_path outfolder fp -> files' !! p = files !! p).
Proof.
  unfold_def collect_spellcheck_error_data_in_file.
  unfold_def load_or_compute.
  assert (Hdel : forall (ed ed' : gmap str value) x,
             del_page_errors (basename fp) ed = (ed', x) ->
             forall u, u <> basename fp -> ed' !! u = ed !! u).
  { intros ed ed' x. unfold del_page_errors.
    destruct (ed !! basename fp) as [[| | | | | |d]|];
      try (intros [= <- <-]; reflexivity).
    destruct (d !! key_page_errors); intros [= <- <-]; [|reflexivity].
    intros u Hu. apply lookup_insert_ne. congruence. }
  destruct (overwrite
            || negb (bool_decide (is_Some (files !! out_path outfolder fp)))).
  - destruct (files !! fp) as [content|];
      [|intros [= <- <- <-]; split; reflexivity].
    destruct (calculate_error_rate _ _ _ _ _) as [e0|r];
      [intros [= <- <- <-]; split; reflexivity|].
    destruct (writable _).
    + rewrite del_page_errors_book. intros [= <- <- <-].
      split; intros x Hx; apply lookup_insert_ne; congruence.
    + intros [= <- <- <-].
      split; [intros u Hu; apply lookup_insert_ne; congruence|reflexivity].
  - destruct (files !! out_path outfolder fp) as [content|];
      [|intros [= <- <- <-]; split; reflexivity].
    destruct (json_loads content) as [v|];
      [|intros [= <- <- <-]; split; reflexivity].
    destruct (del_page_errors _ _) as [ed2 x] eqn:Hd.
    intros [= <- <- <-]. split; [|reflexivity].
    intros u Hu. rewrite (Hdel _ _ _ Hd u Hu).
    apply lookup_insert_ne. congruence.
Qed.

(** X16: whatever the outcome, a call touches one entry of the mapping, the
    one of the book, and one file, the file of error data of the book: every
    other entry and every other file is as before. *)
Theorem call_touches_one_book (fp : str)
    (spellcheck_func : str -> bool) (outfolder : str)
    (error_data : gmap str value) (overwrite : bool) (files : gmap str str)
    (error_data' : gmap str value) (files' : gmap str str)
    (raised : option exn) :
  collect_spellcheck_error_data_in_file fp spellcheck_func outfolder
    error_data overwrite files = (error_data', files', raised) ->
  (forall u, u <> basename fp -> error_data' !! u = error_data !! u)
  /\ (forall p, p <> out_path outfolder fp -> files' !! p = files !! p).
Proof. apply collect_frame. Qed.

(** X17: when the file of error data cannot be opened for writing, the call
    raises with the record of the book already in the mapping, its list of
    pages included. *)
Theorem unwritable_output_leaves_pages (fp : str)
    (spellcheck_func : str -> bool) (outfolder : str)
    (error_data : gmap str value) (overwrite : bool) (files : gmap str str)
    (content : str) (r : book_record) :
  overwrite = true \/ files !! out_path outfolder fp = None ->
  files !! fp = Some content ->
  calculate_error_rate isdigit check_with_pyEnchant ar_tok 8
    (split_last (text "#META#Header#End") content) = inr r ->
  writable (out_path outfolder fp) = false ->
  collect_spellcheck_error_data_in_file fp spellcheck_func outfolder
    error_data overwrite files
  = (<[basename fp := VDict (dict_of_book r)]> error_data, files,
     Some OSError)
  /\ dict_of_book r !! key_page_errors
     = Some (VList (List.map value_of_page (page_errors r))).
Proof.
  intros Hpath Hfile Hcalc Hw. split; [|apply dict_of_book_page_errors].
  unfold_def collect_spellcheck_error_data_in_file.
  unfold_def load_or_compute.
  rewrite (computing_path _ _ _ Hpath), Hfile, Hcalc, Hw. reflexivity.
Qed.

(** X18: a second call finds what the first has written.  After a call that
    computed and returned, a call without [overwrite] returns as well and
    leaves the mapping and the files as the first call left them, as long as
    [json.load] reads back what [json.dump] wrote for the book. *)
Theorem second_call_reuses_record (fp : str)
    (spellcheck_func : str -> bool) (outfolder : str)
    (error_data : gmap str value) (overwrite : bool) (files : gmap str str)
    (content : str) (r : book_record) :
  overwrite = true \/ files !! out_path outfolder fp = None ->
  files !! fp = Some content ->
  calculate_error_rate isdigit check_with_pyEnchant ar_tok 8
    (split_last (text "#META#Header#End") content) = inr r ->
  writable (out_path outfolder fp) = true ->
  json_loads (json_dumps (VDict (dict_of_book r)))
  = Some (VDict (dict_of_book r)) ->
  forall error_data1 files1,
    collect_spellcheck_error_data_in_file fp spellcheck_func outfolder
      error_data overwrite files = (error_data1, files1, None) ->
    collect_spellcheck_error_data_in_file fp spellcheck_func outfolder
      error_data1 false files1 = (error_data1, files1, None).
Proof.
  intros Hpath Hfile Hcalc Hw Hjson error_data1 files1.
  unfold_def collect_spellcheck_error_data_in_file.
  unfold_def load_or_compute.
  rewrite (computing_path _ _ _ Hpath), Hfile, Hcalc, Hw.
  rewrite del_page_errors_book. intros [= <- <-].
  rewrite lookup_insert_eq.
  rewrite bool_decide_eq_true_2 by (eexists; reflexivity).
  cbn [orb negb]. rewrite Hjson.
  rewrite insert_insert_eq, del_page_errors_book.
  reflexivity.
Qed.

End CollectOutcomes.

(** ** The run over a folder *)

Section FolderFacts.

Variable isdigit : N -> bool.
Variable check_with_pyEnchant : str -> bool.
Variable ar_tok : str -> list str.
Variable basename : str -> str.
Variable path_join : str -> str -> str.
Variable json_dumps : value -> str.
Variable json_loads : str -> option value.
Variable writable : str -> bool.
Variable py_str : value -> str.

Local Abbreviation out_file :=
  (fun fp => out_path basename path_join (text "error_data") fp).
Local Abbreviation collect_file :=
  (collect_spellcheck_error_data_in_file isdigit check_with_pyEnchant ar_tok
     basename path_join json_dumps json_loads writable).
Local Abbreviation run_files :=
  (collect_files isdigit check_with_pyEnchant ar_tok basename path_join
     json_dumps json_loads writable py_str).
Local Abbreviation line_of := (tsv_line py_str).

Variable tsv_fp : str.
Variable lang_code : option str.
Variable spellcheck_func : str -> bool.
Variable overwrite : bool.

Local Abbreviation checked := (List.filter (check_lang lang_code)).

Lemma collect_file_entry (fp outfolder : str) (error_data : gmap str value)
    (files : gmap str str) (error_data' : gmap str value)
    (files' : gmap str str) :
  collect_file fp spellcheck_func outfolder error_data overwrite files
  = (error_data', files', None) ->
  exists d : gmap str value,
    error_data' = <[basename fp := VDict (delete key_page_errors d)]> error_data.
Proof.
  unfold_def collect_spellcheck_error_data_in_file.
  destruct (load_or_compute _ _ _ _ _ _ _ _ _ _ _ _ _ _)
    as [[ed1 fs1] [e|]] eqn:Hload; [discriminate|].
  destruct (del_page_errors (basename fp) ed1) as [ed2 raised] eqn:Hdel.
  intros [= -> -> ->].
  destruct (del_page_errors_None _ _ _ Hdel) as (d & _ & _ & ->).
  destruct (load_or_compute_None _ _ _ _ _ _ _ _ _ _ _ _ _ _ _ _ Hload)
    as [v ->].
  exists d. apply insert_insert_eq.
Qed.

Lemma tsv_cells_ext (ed ed' : gmap str value) (v_uri : str) columns :
  ed' !! v_uri = ed !! v_uri ->
  tsv_cells py_str ed' v_uri columns = tsv_cells py_str ed v_uri columns.
Proof.
  intros H. induction columns as [|col columns IH]; simpl; [reflexivity|].
  unfold lookup_col. rewrite H, IH. reflexivity.
Qed.

Lemma tsv_line_ext (ed ed' : gmap str value) (v_uri : str) :
  ed' !! v_uri = ed !! v_uri -> line_of ed' v_uri = line_of ed v_uri.
Proof.
  intros H. unfold tsv_line. rewrite (tsv_cells_ext _ _ _ _ H). reflexivity.
Qed.

Lemma append_to_other (path row p : str) (files : gmap str str) :
  p <> path -> append_to path row files !! p = files !! p.
Proof. intros Hp. unfold append_to. apply lookup_insert_ne. congruence. Qed.

Lemma append_to_same (path row : str) (files : gmap str str) :
  default [] (append_to path row files !! path)
  = default [] (files !! path) ++ row.
Proof. unfold append_to. rewrite lookup_insert_eq. reflexivity. Qed.

(** The files that fail the test of the language are passed over. *)
Lemma run_files_checked (fps : list str) (error_data : gmap str value)
    (files : gmap str str) :
  run_files fps tsv_fp lang_code spellcheck_func overwrite error_data files
  = run_files (checked fps) tsv_fp lang_code spellcheck_func overwrite
      error_data files.
Proof.
  revert error_data files.
  induction fps as [|fp fps IH]; intros error_data files; [reflexivity|].
  cbn [List.filter collect_files].
  destruct (check_lang lang_code fp) eqn:Hfp; [|apply IH].
  cbn [collect_files]. rewrite Hfp.
  destruct (collect_file fp spellcheck_func (text "error_data") error_data
              overwrite files) as [[ed1 fs1] [e|]]; [reflexivity|].
  destruct (line_of ed1 (basename fp)); [reflexivity|apply IH].
Qed.

(** The loop leaves every file alone but the table and the files of error
    data of the books it checks. *)
Lemma run_files_frame (fps : list str) :
  forall (error_data : gmap str value) (files : gmap str str)
         (error_data' : gmap str value) (files' : gmap str str) raised,
    run_files fps tsv_fp lang_code spellcheck_func overwrite error_data files
    = (error_data', files', raised) ->
    forall p : str,
      p <> tsv_fp ->
      (forall fp, In fp (checked fps) -> out_file fp <> p) ->
      files' !! p = files !! p.
Proof.
  induction fps as [|fp fps IH];
    intros error_data files error_data' files' raised Hrun p Hp Hout.
  - injection Hrun as <- <- <-. reflexivity.
  - cbn [collect_files List.filter] in Hrun, Hout.
    destruct (check_lang lang_code fp); [|exact (IH _ _ _ _ _ Hrun p Hp Hout)].
    destruct (collect_file fp spellcheck_func (text "error_data") error_data
                overwrite files) as [[ed1 fs1] raised1] eqn:Hcall.
    destruct (collect_frame _ _ _ _ _ _ _ _ _ _ _ _ _ _ _ _ _ Hcall)
      as [_ Hfiles].
    assert (Hfs1 : fs1 !! p = files !! p).
    { apply Hfiles. intros ->. apply (Hout fp); [left|]; reflexivity. }
    destruct raised1 as [e|]; [injection Hrun as <- <- <-; exact Hfs1|].
    destruct (line_of ed1 (basename fp)) as [e|line];
      [injection Hrun as <- <- <-; exact Hfs1|].
    rewrite (IH _ _ _ _ _ Hrun p Hp), append_to_other by
      (congruence || (intros fp' Hfp'; apply Hout; right; exact Hfp')).
    exact Hfs1.
Qed.

(** The table after the loop: the lines written are those of the files
    checked before the loop ended, one for each in their order, and each is
    the line of the book in the mapping as the loop leaves it. *)
Lemma run_files_table (fps : list str) :
  forall (error_data : gmap str value) (files : gmap str str)
         (error_data' : gmap str value) (files' : gmap str str) raised,
    run_files fps tsv_fp lang_code spellcheck_func overwrite error_data files
    = (error_data', files', raised) ->
    (forall fp, In fp (checked fps) -> out_file fp <> tsv_fp) ->
    NoDup (List.map basename (checked fps)) ->
    exists done rest lines,
      checked fps = done ++ rest
      /\ (raised = None -> rest = [])
      /\ Forall2 (fun fp line => line_of error_data' (basename fp) = inr line)
           done lines
      /\ default [] (files' !! tsv_fp)
         = default [] (files !! tsv_fp) ++ concat lines
      /\ (forall u, ~ In u (List.map basename (checked fps)) ->
                    error_data' !! u = error_data !! u).
Proof.
  induction fps as [|fp fps IH];
    intros error_data files error_data' files' raised Hrun Hout Hdup.
  - injection Hrun as <- <- <-. exists [], [], [].
    split; [reflexivity|]. split; [reflexivity|]. split; [constructor|].
    split; [simpl; rewrite List.app_nil_r; reflexivity|reflexivity].
  - cbn [collect_files List.filter] in Hrun, Hout, Hdup |- *.
    destruct (check_lang lang_code fp); [|exact (IH _ _ _ _ _ Hrun Hout Hdup)].
    cbn [List.map] in Hdup |- *.
    apply NoDup_cons in Hdup as [Hfresh Hdup].
    destruct (collect_file fp spellcheck_func (text "error_data") error_data
                overwrite files) as [[ed1 fs1] raised1] eqn:Hcall.
    destruct (collect_frame _ _ _ _ _ _ _ _ _ _ _ _ _ _ _ _ _ Hcall)
      as [Hed1 Hfs1].
    assert (Htsv : fs1 !! tsv_fp = files !! tsv_fp).
    { apply Hfs1. intros Heq. apply (Hout fp); [left; reflexivity|].
      symmetry. exact Heq. }
    assert (Hstop : forall e : exn,
               exists done rest lines,
                 fp :: checked fps = done ++ rest
                 /\ (Some e = None -> rest = [])
                 /\ Forall2
                      (fun fp line => line_of ed1 (basename fp) = inr line)
                      done lines
                 /\ default [] (fs1 !! tsv_fp)
                    = default [] (files !! tsv_fp) ++ concat lines
                 /\ (forall u, ~ In u (basename fp
                                       :: List.map basename (checked fps)) ->
                               ed1 !! u = error_data !! u)).
    { intros e. exists [], (fp :: checked fps), [].
      split; [reflexivity|]. split; [discriminate|]. split; [constructor|].
      split; [simpl; rewrite List.app_nil_r, Htsv; reflexivity|].
      intros u Hu. apply Hed1. intros ->. apply Hu. left. reflexivity. }
    destruct raised1 as [e|]; [injection Hrun as <- <- <-; apply Hstop|].
    destruct (line_of ed1 (basename fp)) as [e|line] eqn:Hline;
      [injection Hrun as <- <- <-; apply Hstop|].
    destruct (IH _ _ _ _ _ Hrun) as (done & rest & lines & Hsplit & Hnone
                                      & Hlines & Hfile & Hother);
      [intros fp' Hfp'; apply Hout; right; exact Hfp'|exact Hdup|].
    exists (fp :: done), rest, (line :: lines).
    split; [rewrite Hsplit; reflexivity|]. split; [exact Hnone|].
    split.
    + constructor; [|exact Hlines].
      rewrite <- Hline. apply tsv_line_ext. apply Hother.
      rewrite <- list_elem_of_In. exact Hfresh.
    + split.
      * rewrite Hfile, append_to_same, Htsv. simpl.
        rewrite <- List.app_assoc. reflexivity.
      * intros u Hu. rewrite Hother by (intros Hin; apply Hu; right; exact Hin).
        apply Hed1. intros ->. apply Hu. left. reflexivity.
Qed.

(** The mapping after a loop that has not raised: it has gained an entry for
    every file checked, and every entry gained is a dictionary without the
    key [page_errors]. *)
Lemma run_files_entries (fps : list str) :
  forall (error_data : gmap str value) (files : gmap str str)
         (error_data' : gmap str value) (files' : gmap str str),
    run_files fps tsv_fp lang_code spellcheck_func overwrite error_data files
    = (error_data', files', None) ->
    (without_pages error_data -> without_pages error_data')
    /\ (forall u, is_Some (error_data' !! u)
                  <-> is_Some (error_data !! u)
                      \/ In u (List.map basename (checked fps))).
Proof.
  induction fps as [|fp fps IH];
    intros error_data files error_data' files' Hrun.
  - injection Hrun as <- <-. split; [intros H; exact H|].
    intros u. simpl. tauto.
  - cbn [collect_files List.filter] in Hrun |- *.
    destruct (check_lang lang_code fp); [|exact (IH _ _ _ _ Hrun)].
    destruct (collect_file fp spellcheck_func (text "error_data") error_data
                overwrite files) as [[ed1 fs1] [e|]] eqn:Hcall;
      [discriminate|].
    destruct (line_of ed1 (basename fp)) as [e|line]; [discriminate|].
    destruct (collect_file_entry _ _ _ _ _ _ Hcall) as [d ->].
    destruct (IH _ _ _ _ Hrun) as [Hpages Hkeys]. split.
    + intros Hed. apply Hpages. intros u v.
      destruct (decide (basename fp = u)) as [<-|Hu].
      * rewrite lookup_insert_eq. intros [= <-].
        eexists. split; [reflexivity|apply lookup_delete_eq].
      * rewrite lookup_insert_ne by exact Hu. apply Hed.
    + intros u. rewrite Hkeys. cbn [List.map In].
      destruct (decide (basename fp = u)) as [<-|Hu].
      * rewrite lookup_insert_eq. split; [intros _|intros _; left; eexists];
          [right; left|]; reflexivity.
      * rewrite lookup_insert_ne by exact Hu. tauto.
Qed.

End FolderFacts.

Section FolderRun.

Variable isdigit : N -> bool.
Variable check_with_pyEnchant : str -> bool.
Variable ar_tok : str -> list str.
Variable basename : str -> str.
Variable path_join : str -> str -> str.
Variable json_dumps : value -> str.
Variable json_loads : str -> option value.
Variable writable : str -> bool.
Variable get_all_text_files_in_folder : str -> list str.
Variable py_str : value -> str.

Local Abbreviation out_file :=
  (fun fp => out_path basename path_join (text "error_data") fp).
Local Abbreviation run_folder :=
  (collect_spellcheck_error_data_in_folder isdigit check_with_pyEnchant
     ar_tok basename path_join json_dumps json_loads writable
     get_all_text_files_in_folder py_str).
Local Abbreviation line_of := (tsv_line py_str).

Variable folder tsv_fp json_fp outfolder : str.
Variable lang_code : option str.
Variable spellcheck_func : str -> bool.
Variable overwrite : bool.

Local Abbreviation checked_files :=
  (List.filter (check_lang lang_code) (get_all_text_files_in_folder folder)).

(** X19: the table of a run.  When the table can be opened, is not the file
    of the mapping nor the file of error data of a book, and the books
    checked have different names, the table holds, whatever ends the run,
    the header and behind it one line for each file checked before the run
    ended, in the order of the listing: the line of the book in the mapping.
    A run that returns has a line for every file checked. *)
Theorem folder_table (files : gmap str str)
    (error_data' : gmap str value) (files' : gmap str str)
    (raised : option exn) :
  writable tsv_fp = true ->
  json_fp <> tsv_fp ->
  (forall fp, In fp checked_files -> out_file fp <> tsv_fp) ->
  NoDup (List.map basename checked_files) ->
  run_folder folder tsv_fp json_fp outfolder lang_code spellcheck_func
    overwrite files = (error_data', files', raised) ->
  exists done rest lines,
    checked_files = done ++ rest
    /\ (raised = None -> rest = [])
    /\ Forall2 (fun fp line => line_of error_data' (basename fp) = inr line)
         done lines
    /\ files' !! tsv_fp
       = Some (join chr_tab header ++ chr_newline ++ concat lines).
Proof.
  intros Hw Hjson Hout Hdup.
  unfold collect_spellcheck_error_data_in_folder. rewrite Hw.
  destruct (collect_files _ _ _ _ _ _ _ _ _ _ _ _ _ _ _ _)
    as [[ed1 fs1] raised1] eqn:Hrun.
  destruct (run_files_table _ _ _ _ _ _ _ _ _ _ _ _ _ _ _ _ _ _ _ Hrun
              Hout Hdup)
    as (done & rest & lines & Hsplit & Hnone & Hlines & Hfile & _).
  rewrite lookup_insert_eq in Hfile.
  assert (Htable : fs1 !! tsv_fp
                   = Some (join chr_tab header ++ chr_newline ++ concat lines)).
  { destruct (fs1 !! tsv_fp) as [table|] eqn:Htable.
    - change (table = (join chr_tab header ++ chr_newline) ++ concat lines)
        in Hfile.
      rewrite Hfile, <- List.app_assoc. reflexivity.
    - exfalso.
      assert (Hfs1 : is_Some (fs1 !! tsv_fp)); [|destruct Hfs1; congruence].
      clear -Hrun.
      revert Hrun. generalize (∅ : gmap str value).
      assert (Hhas : is_Some
                       ((<[tsv_fp := join chr_tab header ++ chr_newline]> files)
                          !! tsv_fp))
        by (rewrite lookup_insert_eq; eexists; reflexivity).
      revert Hhas.
      generalize (<[tsv_fp := join chr_tab header ++ chr_newline]> files).
      generalize (get_all_text_files_in_folder folder).
      intros fps. induction fps as [|fp fps IH]; intros fs Hhas ed Hrun.
      + injection Hrun as <- <- <-. exact Hhas.
      + cbn [collect_files] in Hrun.
        destruct (check_lang lang_code fp); [|exact (IH _ Hhas _ Hrun)].
        destruct (collect_spellcheck_error_data_in_file _ _ _ _ _ _ _ _ _ _
                    _ _ _ _) as [[ed2 fs2] raised2] eqn:Hcall.
        assert (Hfs2 : is_Some (fs2 !! tsv_fp)).
        { destruct (decide (tsv_fp
                            = out_path basename path_join (text "error_data")
                                fp)) as [Heq|Hne].
          - revert Hcall.
            unfold_def collect_spellcheck_error_data_in_file.
            unfold_def load_or_compute.
            rewrite <- Heq.
            destruct (overwrite || negb (bool_decide (is_Some (fs !! tsv_fp)))).
            + destruct (fs !! fp);
                [|intros [= <- <- <-]; exact Hhas].
              destruct (calculate_error_rate _ _ _ _ _);
                [intros [= <- <- <-]; exact Hhas|].
              destruct (writable tsv_fp).
              * destruct (del_page_errors _ _). intros [= <- <- <-].
                rewrite lookup_insert_eq. eexists; reflexivity.
              * intros [= <- <- <-]. exact Hhas.
            + destruct (fs !! tsv_fp) as [table|] eqn:Hfs;
                [|destruct Hhas; discriminate].
              destruct (json_loads _);
                [|intros [= <- <- <-]; rewrite Hfs; exact Hhas].
              destruct (del_page_errors _ _). intros [= <- <- <-].
              rewrite Hfs. exact Hhas.
          - destruct (collect_frame _ _ _ _ _ _ _ _ _ _ _ _ _ _ _ _ _ Hcall)
              as [_ Hfiles].
            rewrite (Hfiles tsv_fp Hne). exact Hhas. }
        destruct raised2 as [e|]; [injection Hrun as <- <- <-; exact Hfs2|].
        destruct (tsv_line py_str ed2 (basename fp)) as [e|line];
          [injection Hrun as <- <- <-; exact Hfs2|].
        apply (IH _ (ltac:(unfold append_to; rewrite lookup_insert_eq;
                           eexists; reflexivity)) _ Hrun). }
  destruct raised1 as [e|].
  - intros [= <- <- <-]. exists done, rest, lines.
    split; [exact Hsplit|]. split; [discriminate|].
    split; [exact Hlines|exact Htable].
  - destruct (writable json_fp).
    + intros [= <- <- <-]. exists done, rest, lines.
      split; [exact Hsplit|]. split; [exact Hnone|].
      split; [exact Hlines|].
      rewrite lookup_insert_ne by exact Hjson. exact Htable.
    + intros [= <- <- <-]. exists done, rest, lines.
      split; [exact Hsplit|]. split; [discriminate|].
      split; [exact Hlines|exact Htable].
Qed.

(** X20: the mapping of a run that returns.  The file of the mapping holds
    the mapping, the mapping has an entry under the name of every file
    checked and no other, and no entry has the key [page_errors]. *)
Theorem folder_mapping (files : gmap str str)
    (error_data' : gmap str value) (files' : gmap str str) :
  run_folder folder tsv_fp json_fp outfolder lang_code spellcheck_func
    overwrite files = (error_data', files', None) ->
  files' !! json_fp = Some (json_dumps (VDict error_data'))
  /\ without_pages error_data'
  /\ (forall u, is_Some (error_data' !! u)
                <-> In u (List.map basename checked_files)).
Proof.
  unfold collect_spellcheck_error_data_in_folder.
  destruct (writable tsv_fp); [|discriminate].
  destruct (collect_files _ _ _ _ _ _ _ _ _ _ _ _ _ _ _ _)
    as [[ed1 fs1] [e|]] eqn:Hrun; [discriminate|].
  destruct (writable json_fp); [|discriminate].
  intros [= <- <-].
  destruct (run_files_entries _ _ _ _ _ _ _ _ _ _ _ _ _ _ _ _ _ _ Hrun)
    as [Hpages Hkeys].
  split; [apply lookup_insert_eq|]. split.
  - apply Hpages. intros u v Hu. rewrite lookup_empty in Hu. discriminate.
  - intros u. rewrite Hkeys. rewrite lookup_empty. split.
    + intros [[x Hx]|Hin]; [discriminate|exact Hin].
    + intros Hin. right. exact Hin.
Qed.

(** X21: a run that raises leaves the file of the mapping as it was, when
    that file is neither the table nor the file of error data of a book. *)
Theorem failed_run_leaves_json (files : gmap str str)
    (error_data' : gmap str value) (files' : gmap str str) (e : exn) :
  json_fp <> tsv_fp ->
  (forall fp, In fp checked_files -> out_file fp <> json_fp) ->
  run_folder folder tsv_fp json_fp outfolder lang_code spellcheck_func
    overwrite files = (error_data', files', Some e) ->
  files' !! json_fp = files !! json_fp.
Proof.
  intros Hjson Hout.
  unfold collect_spellcheck_error_data_in_folder.
  destruct (writable tsv_fp); [|intros [= <- <- <-]; reflexivity].
  destruct (collect_files _ _ _ _ _ _ _ _ _ _ _ _ _ _ _ _)
    as [[ed1 fs1] raised1] eqn:Hrun.
  pose proof (run_files_frame _ _ _ _ _ _ _ _ _ _ _ _ _ _ _ _ _ _ _ Hrun
                json_fp Hjson Hout) as Hfs1.
  rewrite lookup_insert_ne in Hfs1 by congruence.
  destruct raised1 as [e1|]; [intros [= <- <- <-]; exact Hfs1|].
  destruct (writable json_fp); [discriminate|].
  intros [= <- <- <-]. exact Hfs1.
Qed.

End FolderRun.

(** X22: the files of the listing that fail the test of the language play no
    part in a run: the run is the run over the files that pass it. *)
Theorem unchecked_files_skipped (isdigit : N -> bool)
    (check_with_pyEnchant : str -> bool) (ar_tok : str -> list str)
    (basename : str -> str) (path_join : str -> str -> str)
    (json_dumps : value -> str) (json_loads : str -> option value)
    (writable : str -> bool) (get_all_text_files_in_folder : str -> list str)
    (py_str : value -> str) (folder tsv_fp json_fp outfolder : str)
    (lang_code : option str) (spellcheck_func : str -> bool)
    (overwrite : bool) (files : gmap str str) :
  collect_spellcheck_error_data_in_folder isdigit check_with_pyEnchant ar_tok
    basename path_join json_dumps json_loads writable
    get_all_text_files_in_folder py_str
    folder tsv_fp json_fp outfolder lang_code spellcheck_func overwrite files
  = collect_spellcheck_error_data_in_folder isdigit check_with_pyEnchant
      ar_tok basename path_join json_dumps json_loads writable
      (fun folder => List.filter (check_lang lang_code)
                       (get_all_text_files_in_folder folder)) py_str
      folder tsv_fp json_fp outfolder lang_code spellcheck_func overwrite
      files.
Proof.
  unfold collect_spellcheck_error_data_in_folder.
  rewrite run_files_checked. reflexivity.
Qed.

(** ** Instances *)

Lemma contains_occurs (sep t : str) : occurs sep t -> contains sep t = true.
Proof.
  intros (a & b & ->).
  induction a as [|c a IH].
  - pose proof (strip_prefix_self sep b) as Hp. simpl.
    destruct (sep ++ b); simpl; rewrite Hp; reflexivity.
  - cbn [app contains].
    destruct (strip_prefix sep (c :: a ++ sep ++ b)); [reflexivity|exact IH].
Qed.

Lemma text_piece_read_witness :
  startswith (text "hello world ") (text "Page") = false
  /\ count_segment example_spellcheck word_runs 8 (new_counts, new_page)
       (text "hello world ")
     = fold_left (count_token example_spellcheck 8)
         (word_runs (text "hello world ")) (new_counts, new_page).
Proof.
  split; [reflexivity|].
  exact (proj1 (text_piece_read example_spellcheck word_runs 8
                  (new_counts, new_page) 104%N (text "ello world ")
                  eq_refl)).
Defined.

Lemma page_errors_between_markers_witness :
  Forall (fun x => startswith x (text "Page") = false)
    (texts (re_split ascii_digit example_text))
  /\ calculate_error_rate ascii_digit example_spellcheck word_runs 8
       example_text = inr example_book
  /\ page_errors example_book
     = pages_from example_spellcheck word_runs 8 new_page
         (re_split ascii_digit example_text).
Proof.
  assert (Htexts : Forall (fun x => startswith x (text "Page") = false)
                     (texts (re_split ascii_digit example_text)))
    by (vm_compute; repeat constructor).
  assert (Hrun : calculate_error_rate ascii_digit example_spellcheck
                   word_runs 8 example_text = inr example_book)
    by (vm_compute; reflexivity).
  split; [exact Htexts|]. split; [exact Hrun|].
  exact (page_errors_between_markers ascii_digit example_spellcheck
           word_runs 8 example_text example_book Htexts Hrun).
Defined.

Lemma book_counts_of_text_witness :
  calculate_error_rate ascii_digit example_spellcheck word_runs 8
    example_text = inr example_book
  /\ tok_count example_book
     = Z.of_nat
         (List.length
            (tokens_of_segments word_runs
               (texts (re_split ascii_digit example_text)))).
Proof.
  assert (Hrun : calculate_error_rate ascii_digit example_spellcheck
                   word_runs 8 example_text = inr example_book)
    by (vm_compute; reflexivity).
  split; [exact Hrun|].
  exact (proj1 (book_counts_of_text ascii_digit example_spellcheck word_runs
                  8 example_text example_book Hrun)).
Defined.

Lemma higher_threshold_fewer_long_witness :
  2 <= 8
  /\ calculate_error_rate ascii_digit example_spellcheck word_runs 2
       example_text
     = inr (mk_book 1 1 3 (page_errors example_book) (1 # 3) (1 # 3))
  /\ exists r',
      calculate_error_rate ascii_digit example_spellcheck word_runs 8
        example_text = inr r'
      /\ tok_count r' = 3 /\ all r' = 1
      /\ error_rate r' = (1 # 3)%Q /\ long r' <= 1.
Proof.
  assert (Hle : 2 <= 8) by lia.
  assert (Hrun : calculate_error_rate ascii_digit example_spellcheck
                   word_runs 2 example_text
                 = inr (mk_book 1 1 3 (page_errors example_book)
                          (1 # 3) (1 # 3)))
    by (vm_compute; reflexivity).
  split; [exact Hle|]. split; [exact Hrun|].
  exact (higher_threshold_fewer_long ascii_digit example_spellcheck word_runs
           2 8 example_text _ Hle Hrun).
Defined.

Lemma no_error_iff_all_accepted_witness :
  calculate_error_rate ascii_digit example_spellcheck word_runs 8
    example_text = inr example_book
  /\ (all example_book = 0
      <-> Forall (fun tok => example_spellcheck tok = true)
            (tokens_of_segments word_runs
               (texts (re_split ascii_digit example_text)))).
Proof.
  assert (Hrun : calculate_error_rate ascii_digit example_spellcheck
                   word_runs 8 example_text = inr example_book)
    by (vm_compute; reflexivity).
  split; [exact Hrun|].
  exact (no_error_iff_all_accepted ascii_digit example_spellcheck word_runs
           8 example_text example_book Hrun).
Defined.

Lemma page_numbers_of_list_witness :
  calculate_error_rate ascii_digit example_spellcheck word_runs 8
    example_text = inr example_book
  /\ List.map pg_page_no (page_errors example_book)
     = List.filter (fun p => startswith p (text "Page"))
         (re_split ascii_digit example_text).
Proof.
  assert (Hrun : calculate_error_rate ascii_digit example_spellcheck
                   word_runs 8 example_text = inr example_book)
    by (vm_compute; reflexivity).
  split; [exact Hrun|].
  exact (page_numbers_of_list ascii_digit example_spellcheck word_runs 8
           example_text example_book Hrun).
Defined.

Lemma tokens_behind_last_marker_witness :
  calculate_error_rate ascii_digit example_spellcheck word_runs 8
    example_text = inr example_book
  /\ tok_count example_book
     = sum_tok_count (page_errors example_book)
       + Z.of_nat
           (List.length
              (tokens_of_segment word_runs
                 (List.last (re_split ascii_digit example_text) []))).
Proof.
  assert (Hrun : calculate_error_rate ascii_digit example_spellcheck
                   word_runs 8 example_text = inr example_book)
    by (vm_compute; reflexivity).
  split; [exact Hrun|].
  exact (tokens_behind_last_marker ascii_digit example_spellcheck word_runs 8
           example_text example_book Hrun).
Defined.

Lemma split_last_behind_separator_witness :
  text "#META#Header#End" <> []
  /\ ~ occurs (text "#META#Header#End")
         (split_last (text "#META#Header#End")
            (text "#META#Header#End" ++ example_text))
  /\ split_last (text "#META#Header#End")
       (text "#META#Header#End" ++ example_text) = example_text.
Proof.
  assert (Hsep : text "#META#Header#End" <> []) by discriminate.
  split; [exact Hsep|].
  split; [|vm_compute; reflexivity].
  exact (proj1 (split_last_behind_separator (text "#META#Header#End") Hsep
                  (text "#META#Header#End" ++ example_text))).
Defined.

Lemma split_last_without_separator_witness :
  ~ occurs (text "#META#Header#End") example_text
  /\ split_last (text "#META#Header#End") example_text = example_text.
Proof.
  assert (Hfree : ~ occurs (text "#META#Header#End") example_text).
  { intros H. apply contains_occurs in H. vm_compute in H. discriminate H. }
  split; [exact Hfree|].
  exact (split_last_without_separator (text "#META#Header#End") example_text
           Hfree).
Defined.

Lemma computed_entry_witness :
  (false = true \/ demo_files !! demo_outfp = None)
  /\ demo_files !! demo_fp = Some (text "#META#Header#End" ++ example_text)
  /\ calculate_error_rate ascii_digit example_spellcheck word_runs 8
       (split_last (text "#META#Header#End")
          (text "#META#Header#End" ++ example_text)) = inr example_book
  /\ collect_spellcheck_error_data_in_file ascii_digit example_spellcheck
       word_runs posix_basename posix_join demo_dumps (demo_loads ∅)
       (fun _ => true)
       demo_fp (fun _ => false) (text "error_data") ∅ false demo_files
     = (<[posix_basename demo_fp
          := VDict (delete key_page_errors (dict_of_book example_book))]> ∅,
        <[demo_outfp := demo_dumps (VDict (dict_of_book example_book))]>
          demo_files,
        None).
Proof.
  assert (Hpath : false = true \/ demo_files !! demo_outfp = None)
    by (right; vm_compute; reflexivity).
  assert (Hfile : demo_files !! demo_fp
                  = Some (text "#META#Header#End" ++ example_text))
    by (vm_compute; reflexivity).
  assert (Hrun : calculate_error_rate ascii_digit example_spellcheck
                   word_runs 8
                   (split_last (text "#META#Header#End")
                      (text "#META#Header#End" ++ example_text))
                 = inr example_book)
    by (vm_compute; reflexivity).
  split; [exact Hpath|]. split; [exact Hfile|]. split; [exact Hrun|].
  exact (computed_entry ascii_digit example_spellcheck word_runs
           posix_basename posix_join demo_dumps (demo_loads ∅)
           (fun _ => true)
           demo_fp (fun _ => false) (text "error_data") ∅ false demo_files
           _ example_book Hpath Hfile Hrun eq_refl).
Defined.


Lemma call_touches_one_book_witness :
  demo_computed = (fst (fst demo_computed), snd (fst demo_computed), None)
  /\ snd (fst demo_computed) !! demo_fp = demo_files !! demo_fp.
Proof.
  assert (Hcall : demo_computed
                  = (fst (fst demo_computed), snd (fst demo_computed), None))
    by (vm_compute; reflexivity).
  split; [exact Hcall|].
  apply (proj2 (call_touches_one_book ascii_digit example_spellcheck
                  word_runs posix_basename posix_join demo_dumps
                  (demo_loads ∅) (fun _ => true)
                  demo_fp example_spellcheck (text "error_data") ∅ false
                  demo_files _ _ _ Hcall)).
  vm_compute. discriminate.
Defined.

Lemma unwritable_output_leaves_pages_witness :
  (false = true \/ demo_files !! demo_outfp = None)
  /\ demo_files !! demo_fp = Some (text "#META#Header#End" ++ example_text)
  /\ collect_spellcheck_error_data_in_file ascii_digit example_spellcheck
       word_runs posix_basename posix_join demo_dumps (demo_loads ∅)
       (fun _ => false)
       demo_fp example_spellcheck (text "error_data") ∅ false demo_files
     = (<[posix_basename demo_fp := VDict (dict_of_book example_book)]> ∅,
        demo_files, Some OSError).
Proof.
  assert (Hpath : false = true \/ demo_files !! demo_outfp = None)
    by (right; vm_compute; reflexivity).
  assert (Hfile : demo_files !! demo_fp
                  = Some (text "#META#Header#End" ++ example_text))
    by (vm_compute; reflexivity).
  assert (Hrun : calculate_error_rate ascii_digit example_spellcheck
                   word_runs 8
                   (split_last (text "#META#Header#End")
                      (text "#META#Header#End" ++ example_text))
                 = inr example_book)
    by (vm_compute; reflexivity).
  split; [exact Hpath|]. split; [exact Hfile|].
  exact (proj1 (unwritable_output_leaves_pages ascii_digit
                  example_spellcheck word_runs posix_basename posix_join
                  demo_dumps (demo_loads ∅) (fun _ => false)
                  demo_fp example_spellcheck (text "error_data") ∅ false
                  demo_files _ example_book Hpath Hfile Hrun eq_refl)).
Defined.

Lemma second_call_reuses_record_witness :
  demo_loads (dict_of_book example_book)
    (demo_dumps (VDict (dict_of_book example_book)))
  = Some (VDict (dict_of_book example_book))
  /\ forall error_data1 files1,
      collect_spellcheck_error_data_in_file ascii_digit example_spellcheck
        word_runs posix_basename posix_join demo_dumps
        (demo_loads (dict_of_book example_book)) (fun _ => true)
        demo_fp example_spellcheck (text "error_data") ∅ false demo_files
      = (error_data1, files1, None) ->
      collect_spellcheck_error_data_in_file ascii_digit example_spellcheck
        word_runs posix_basename posix_join demo_dumps
        (demo_loads (dict_of_book example_book)) (fun _ => true)
        demo_fp example_spellcheck (text "error_data") error_data1 false
        files1
      = (error_data1, files1, None).
Proof.
  assert (Hpath : false = true \/ demo_files !! demo_outfp = None)
    by (right; vm_compute; reflexivity).
  assert (Hfile : demo_files !! demo_fp
                  = Some (text "#META#Header#End" ++ example_text))
    by (vm_compute; reflexivity).
  assert (Hrun : calculate_error_rate ascii_digit example_spellcheck
                   word_runs 8
                   (split_last (text "#META#Header#End")
                      (text "#META#Header#End" ++ example_text))
                 = inr example_book)
    by (vm_compute; reflexivity).
  split; [reflexivity|].
  exact (second_call_reuses_record ascii_digit example_spellcheck word_runs
           posix_basename posix_join demo_dumps
           (demo_loads (dict_of_book example_book)) (fun _ => true)
           demo_fp example_spellcheck (text "error_data") ∅ false demo_files
           _ example_book Hpath Hfile Hrun eq_refl eq_refl).
Defined.

Lemma demo_checked :
  List.filter (check_lang (Some (text "ara"))) (demo_listing (text "corpus"))
  = [demo_fp].
Proof. vm_compute. reflexivity. Qed.

Lemma folder_table_witness :
  text "corpus.json" <> text "corpus.tsv"
  /\ demo_run (fun _ => true)
     = (fst (fst (demo_run (fun _ => true))),
        snd (fst (demo_run (fun _ => true))), None)
  /\ exists done rest lines,
      List.filter (check_lang (Some (text "ara")))
        (demo_listing (text "corpus")) = done ++ rest
      /\ (@None exn = None -> rest = [])
      /\ Forall2
           (fun fp line =>
              tsv_line demo_str (fst (fst (demo_run (fun _ => true))))
                (posix_basename fp) = inr line)
           done lines
      /\ snd (fst (demo_run (fun _ => true))) !! text "corpus.tsv"
         = Some (join chr_tab header ++ chr_newline ++ concat lines).
Proof.
  assert (Hjson : text "corpus.json" <> text "corpus.tsv") by discriminate.
  assert (Hrun : demo_run (fun _ => true)
                 = (fst (fst (demo_run (fun _ => true))),
                    snd (fst (demo_run (fun _ => true))), None))
    by (vm_compute; reflexivity).
  split; [exact Hjson|]. split; [exact Hrun|].
  refine (folder_table ascii_digit example_spellcheck word_runs
            posix_basename posix_join demo_dumps (demo_loads ∅)
            (fun _ => true) demo_listing demo_str
            (text "corpus") (text "corpus.tsv") (text "corpus.json")
            (text "error_data") (Some (text "ara")) example_spellcheck false
            demo_files _ _ _ eq_refl Hjson _ _ Hrun).
  - intros fp Hin. rewrite demo_checked in Hin.
    destruct Hin as [<-|[]]. vm_compute. discriminate.
  - rewrite demo_checked. apply NoDup_singleton.
Defined.

Lemma folder_mapping_witness :
  demo_run (fun _ => true)
  = (fst (fst (demo_run (fun _ => true))),
     snd (fst (demo_run (fun _ => true))), None)
  /\ snd (fst (demo_run (fun _ => true))) !! text "corpus.json"
     = Some (demo_dumps (VDict (fst (fst (demo_run (fun _ => true))))))
  /\ without_pages (fst (fst (demo_run (fun _ => true)))).
Proof.
  assert (Hrun : demo_run (fun _ => true)
                 = (fst (fst (demo_run (fun _ => true))),
                    snd (fst (demo_run (fun _ => true))), None))
    by (vm_compute; reflexivity).
  split; [exact Hrun|].
  destruct (folder_mapping ascii_digit example_spellcheck word_runs
              posix_basename posix_join demo_dumps (demo_loads ∅)
              (fun _ => true) demo_listing demo_str
              (text "corpus") (text "corpus.tsv") (text "corpus.json")
              (text "error_data") (Some (text "ara")) example_spellcheck
              false demo_files _ _ Hrun) as (Hfile & Hpages & _).
  split; [exact Hfile|exact Hpages].
Defined.

Lemma failed_run_leaves_json_witness :
  text "corpus.json" <> text "corpus.tsv"
  /\ demo_run demo_no_json
     = (fst (fst (demo_run demo_no_json)), snd (fst (demo_run demo_no_json)),
        Some OSError)
  /\ snd (fst (demo_run demo_no_json)) !! text "corpus.json"
     = demo_files !! text "corpus.json".
Proof.
  assert (Hjson : text "corpus.json" <> text "corpus.tsv") by discriminate.
  assert (Hrun : demo_run demo_no_json
                 = (fst (fst (demo_run demo_no_json)),
                    snd (fst (demo_run demo_no_json)), Some OSError))
    by (vm_compute; reflexivity).
  split; [exact Hjson|]. split; [exact Hrun|].
  refine (failed_run_leaves_json ascii_digit example_spellcheck word_runs
            posix_basename posix_join demo_dumps (demo_loads ∅)
            demo_no_json demo_listing demo_str
            (text "corpus") (text "corpus.tsv") (text "corpus.json")
            (text "error_data") (Some (text "ara")) example_spellcheck false
            demo_files _ _ OSError Hjson _ Hrun).
  intros fp Hin. rewrite demo_checked in Hin.
  destruct Hin as [<-|[]]. vm_compute. discriminate.
Defined.
